(** * ebook-reader: the two operational scripts

    [src/test-agent.py] sends one question to a managed conversational agent
    and prints the streamed answer; [src/backend/create-opensearch-index.py]
    creates the vector index of a search collection.  Both are straight-line
    Python over SDK calls, so the embedding is a small monad that threads the
    chronological trace of what a run does to the outside world (text written
    to standard output, SDK calls with their arguments) and an outcome that is
    a value, a raised exception or [sys.exit]. *)

From Stdlib Require Import Strings.String Strings.Ascii Strings.Byte List ZArith NArith Bool Lia.
Import ListNotations.

Local Open Scope string_scope.
#[local] Set Warnings "-register-all".


(** ** The Python runtime the scripts rely on *)
Module Py.

(** A Python [str] is held by its UTF-8 encoding, one [ascii] per byte; the
    literals of the scripts are written as they stand in the source. *)
Definition LF : string := String (ascii_of_nat 10) EmptyString.

(** [sub in s] on strings. *)
Fixpoint contains (sub s : string) : bool :=
  prefix sub s ||
  match s with
  | EmptyString => false
  | String _ s' => contains sub s'
  end.

(** [s.replace(old, new)]: every occurrence of [old], found left to right
    without overlap, becomes [new].  [skip] counts the characters of the
    occurrence being dropped. *)
Fixpoint replace_from (old new : string) (skip : nat) (s : string) : string :=
  match s with
  | EmptyString =>
      match String.length old with O => new | S _ => EmptyString end
  | String c s' =>
      match skip with
      | S k => replace_from old new k s'
      | O =>
          if prefix old s then
            match String.length old with
            | O => new ++ String c (replace_from old new 0 s')
            | S k => new ++ replace_from old new k s'
            end
          else String c (replace_from old new 0 s')
      end
  end.

Definition replace (old new s : string) : string := replace_from old new 0 s.

(** *** Bytes and the UTF-8 codec *)

Definition byte_string := list byte.

Definition in_range (lo hi : N) (b : byte) : bool :=
  (lo <=? Byte.to_N b)%N && (Byte.to_N b <=? hi)%N.

Definition continuation : byte -> bool := in_range 128 191.

(** Well-formed UTF-8 (the byte ranges of the Unicode standard, which the
    strict codec enforces: no overlong form, no surrogate, nothing above
    U+10FFFF). *)
Fixpoint utf8_valid (bs : byte_string) : bool :=
  match bs with
  | [] => true
  | b0 :: r0 =>
      if in_range 0 127 b0 then utf8_valid r0
      else
        match r0 with
        | [] => false
        | b1 :: r1 =>
            if in_range 194 223 b0 then continuation b1 && utf8_valid r1
            else
              match r1 with
              | [] => false
              | b2 :: r2 =>
                  if in_range 224 224 b0 then
                    in_range 160 191 b1 && continuation b2 && utf8_valid r2
                  else if in_range 225 236 b0 || in_range 238 239 b0 then
                    continuation b1 && continuation b2 && utf8_valid r2
                  else if in_range 237 237 b0 then
                    in_range 128 159 b1 && continuation b2 && utf8_valid r2
                  else
                    match r2 with
                    | [] => false
                    | b3 :: r3 =>
                        if in_range 240 240 b0 then
                          in_range 144 191 b1 && continuation b2
                          && continuation b3 && utf8_valid r3
                        else if in_range 241 243 b0 then
                          continuation b1 && continuation b2
                          && continuation b3 && utf8_valid r3
                        else if in_range 244 244 b0 then
                          in_range 128 143 b1 && continuation b2
                          && continuation b3 && utf8_valid r3
                        else false
                    end
              end
        end
  end.

(** [text.encode('utf-8')], for writing byte payloads down. *)
Definition encode (s : string) : byte_string := list_byte_of_string s.

(** *** Exceptions *)

(** An instance of Python's [Exception]: its class name and what [str(e)]
    gives.  These are the errors an [except Exception] clause catches;
    [sys.exit] is not one of them and is an outcome of its own below. *)
Record exn : Type := mk_exn { exn_class : string; exn_str : string }.

(** *** JSON-like values (dict literals, SDK responses) *)
Inductive json : Type :=
| JNull
| JBool (b : bool)
| JInt (n : Z)
| JStr (s : string)
| JList (items : list json)
| JDict (fields : list (string * json)).

(** [d[k]] on a dict held as its items in insertion order. *)
Fixpoint lookup {V : Type} (k : string) (fields : list (string * V)) : option V :=
  match fields with
  | [] => None
  | (k', v) :: rest => if String.eqb k k' then Some v else lookup k rest
  end.

Definition item (k : string) (j : json) : option json :=
  match j with
  | JDict fields => lookup k fields
  | _ => None
  end.

(** [j[k1][k2]...]. *)
Fixpoint at_path (path : list string) (j : json) : option json :=
  match path with
  | [] => Some j
  | k :: rest =>
      match item k j with
      | Some j' => at_path rest j'
      | None => None
      end
  end.

Definition keys (j : json) : list string :=
  match j with
  | JDict fields => map fst fields
  | _ => []
  end.

(** *** Runs: trace and outcome *)
Section Runs.

(** [C] is the script's vocabulary of SDK calls. *)
Context {C : Type}.

Inductive io : Type :=
| Stdout (text : string)
| Call (c : C).

Definition trace := list io.

Inductive outcome (A : Type) : Type :=
| Return (a : A)
| Raise (e : exn)
| SysExit (status : Z).

Definition M (A : Type) : Type := trace -> trace * outcome A.

Definition ret {A} (a : A) : M A := fun t => (t, Return A a).

Definition bind {A B} (m : M A) (k : A -> M B) : M B :=
  fun t =>
    match m t with
    | (t', Return _ a) => k a t'
    | (t', Raise _ e) => (t', Raise B e)
    | (t', SysExit _ n) => (t', SysExit B n)
    end.

Definition raise {A} (e : exn) : M A := fun t => (t, Raise A e).

(** [sys.exit(n)]. *)
Definition sys_exit {A} (n : Z) : M A := fun t => (t, SysExit A n).

(** [try: body  except Exception as e: handler e].  [sys.exit] inside
    [body] is not an [Exception] and passes through. *)
Definition try_except {A} (body : M A) (handler : exn -> M A) : M A :=
  fun t =>
    match body t with
    | (t', Raise _ e) => handler e t'
    | r => r
    end.

Definition emit (x : io) : M unit := fun t => ((t ++ [x])%list, Return unit tt).

(** [print(s, end=e)]: one write of [s] followed by [e]. *)
Definition print_end (s e : string) : M unit := emit (Stdout (s ++ e)).

(** [print(s)]. *)
Definition print (s : string) : M unit := print_end s LF.

(** An SDK call: logged, then it returns or raises as the service decides. *)
Definition sdk {A} (c : C) (result : exn + A) : M A :=
  fun t =>
    ((t ++ [Call c])%list,
     match result with
     | inl e => Raise A e
     | inr a => Return A a
     end).

(** [xs[i]]. *)
Definition getitem {A} (xs : list A) (i : nat) : M A :=
  match nth_error xs i with
  | Some x => ret x
  | None => raise (mk_exn "IndexError" "list index out of range")
  end.

(** What the process reports to its parent: 0 when the script runs to its
    end, the argument of [sys.exit], 1 when an exception is never caught
    (the interpreter prints the traceback). *)
Definition exit_status {A} (o : outcome A) : Z :=
  match o with
  | Return _ _ => 0
  | Raise _ _ => 1
  | SysExit _ n => n
  end.

(** The text on standard output, write by write. *)
Fixpoint stdout (t : trace) : list string :=
  match t with
  | [] => []
  | Stdout s :: t' => s :: stdout t'
  | Call _ :: t' => stdout t'
  end.

Fixpoint calls (t : trace) : list C :=
  match t with
  | [] => []
  | Stdout _ :: t' => calls t'
  | Call c :: t' => c :: calls t'
  end.

End Runs.

Arguments io : clear implicits.
Arguments trace : clear implicits.
Arguments M : clear implicits.
Arguments Return {A} a.
Arguments Raise {A} e.
Arguments SysExit {A} status.

Declare Scope py_scope.
Delimit Scope py_scope with py.
Notation "x <- m ;; k" := (bind m (fun x => k))
  (at level 61, m at next level, right associativity) : py_scope.
Notation "m ;; k" := (bind m (fun _ => k))
  (at level 61, right associativity) : py_scope.

End Py.

(** ** [src/test-agent.py] *)
Module TestAgent.
Import Py.
Local Open Scope py_scope.

(** What the agent runtime streams back: each event is a dict that may have
    a ['chunk'] key, whose value is a dict that may have a ['bytes'] key;
    whatever else they carry (traces, attributions) is kept beside. *)
Record Chunk : Type := mk_chunk {
  bytes : option byte_string;
  chunk_other_keys : list (string * json)
}.

Record Event : Type := mk_event {
  chunk : option Chunk;
  event_other_keys : list (string * json)
}.

(** [response['completion']]: pulled one event at a time until the service
    ends the stream or the pull raises. *)
Inductive EventStream : Type :=
| StopIteration
| Yield (event : Event) (rest : EventStream)
| Broken (e : exn).

Record Response : Type := mk_response { completion : EventStream }.

(** The SDK calls of the script, with the keyword arguments it passes.
    [next] is one pull of the for loop on the event stream, logged with what
    the pull gave: an event, the end of the stream ([inr None]) or an
    exception. *)
Inductive call : Type :=
| boto3_client (service_name region_name : string)
| invoke_agent (agentId agentAliasId sessionId inputText : string)
| next (result : exn + option Event).

(** The world a run meets: how the SDK and the service answer, and the text
    the codec puts in a [UnicodeDecodeError]. *)
Record Runtime : Type := mk_runtime {
  new_client : string -> string -> exn + unit;
  agent_answer : string -> string -> string -> string -> exn + Response;
  decode_error_text : byte_string -> string
}.

(** [b.decode('utf-8')]. *)
Definition decode (rt : Runtime) (b : byte_string) : M call string :=
  if utf8_valid b then ret (string_of_list_byte b)
  else raise (mk_exn "UnicodeDecodeError" (decode_error_text rt b)).

(** The body of the for loop, lines 24-29; it returns the new value of
    [completion]. *)
Definition on_event (rt : Runtime) (event : Event) (completion : string)
  : M call string :=
  match chunk event with
  | Some chunk =>
      match bytes chunk with
      | Some b =>
          text <- decode rt b ;;
          let completion := completion ++ text in
          print_end text "" ;;
          ret completion
      | None => ret completion
      end
  | None => ret completion
  end.

(** [for event in response['completion']: ...], lines 23-29. *)
Fixpoint for_event (rt : Runtime) (events : EventStream) (completion : string)
  : M call string :=
  match events with
  | StopIteration =>
      emit (Call (next (inr None))) ;;
      ret completion
  | Broken e =>
      emit (Call (next (inl e))) ;;
      raise e
  | Yield event rest =>
      emit (Call (next (inr (Some event)))) ;;
      completion <- on_event rt event completion ;;
      for_event rt rest completion
  end.

(** [test_agent(agent_id, alias_id, question)], lines 6-35. *)
Definition test_agent (rt : Runtime) (agent_id alias_id question : string)
  : M call unit :=
  sdk (boto3_client "bedrock-agent-runtime" "eu-west-1")
      (new_client rt "bedrock-agent-runtime" "eu-west-1") ;;
  print "Testing Agent..." ;;
  print ("Question: " ++ question ++ LF) ;;
  try_except
    (response <- sdk (invoke_agent agent_id alias_id "test-session-123" question)
                     (agent_answer rt agent_id alias_id "test-session-123" question) ;;
     print "Response:" ;;
     completion <- for_event rt (completion response) "" ;;
     print LF)
    (fun e =>
       print ("Error: " ++ exn_str e) ;;
       sys_exit 1).

(** The [__main__] block, lines 37-46; [argv] is [sys.argv], the script's
    own name first. *)
Definition main (rt : Runtime) (argv : list string) : M call unit :=
  if (List.length argv <? 3)%nat then
    print "Usage: python3 test-agent.py <agent-id> <alias-id> [question]" ;;
    sys_exit 1
  else
    agent_id <- getitem argv 1 ;;
    alias_id <- getitem argv 2 ;;
    question <- (if (3 <? List.length argv)%nat then getitem argv 3
                 else ret "What is a derivative?") ;;
    test_agent rt agent_id alias_id question.

(** The command-line arguments proper. *)
Definition arguments (argv : list string) : list string := tl argv.

(** A run of the script from the shell: the trace starts empty. *)
Definition run (rt : Runtime) (argv : list string) : trace call * outcome unit :=
  main rt argv [].

(** *** What a trace shows *)

(** The byte payload of an event, when it has one: [event['chunk']['bytes']]. *)
Definition payload (event : Event) : option byte_string :=
  match chunk event with
  | Some chunk => bytes chunk
  | None => None
  end.

Definition well_formed (event : Event) : bool :=
  match payload event with
  | Some b => utf8_valid b
  | None => true
  end.

(** The text fragments of a run of events, in stream order. *)
Fixpoint fragments (events : list Event) : list string :=
  match events with
  | [] => []
  | event :: rest =>
      match payload event with
      | Some b => string_of_list_byte b :: fragments rest
      | None => fragments rest
      end
  end.

Fixpoint joined (texts : list string) : string :=
  match texts with
  | [] => EmptyString
  | text :: rest => text ++ joined rest
  end.

(** What one well-formed event leaves in the trace: the pull, then the
    write of its fragment if it has one. *)
Definition consumed (event : Event) : trace call :=
  Call (next (inr (Some event))) ::
  match payload event with
  | Some b => [Stdout (string_of_list_byte b)]
  | None => []
  end.

(** The part of a trace that follows the pull that found the stream
    exhausted. *)
Fixpoint after_exhaustion (t : trace call) : trace call :=
  match t with
  | [] => []
  | Call (next (inr None)) :: rest => rest
  | _ :: rest => after_exhaustion rest
  end.

(** The agent invocations of a trace: agent, alias, session and question. *)
Fixpoint invocations (t : trace call) : list (string * string * string * string) :=
  match t with
  | [] => []
  | Call (invoke_agent a b s q) :: rest => (a, b, s, q) :: invocations rest
  | _ :: rest => invocations rest
  end.

(** The payload bytes of a run of events, end to end. *)
Definition payloads (events : list Event) : byte_string :=
  flat_map (fun event => match payload event with
                         | Some b => b
                         | None => []
                         end) events.

(** *** Streams and mock services *)

Definition text_event (s : string) : Event :=
  mk_event (Some (mk_chunk (Some (encode s)) [])) [].

(** [events], then whatever [tail] does. *)
Fixpoint events_then (events : list Event) (tail : EventStream) : EventStream :=
  match events with
  | [] => tail
  | event :: rest => Yield event (events_then rest tail)
  end.

Definition stream_of (events : list Event) : EventStream :=
  events_then events StopIteration.

(** A service that answers every invocation with the stream [events]. *)
Definition streaming (events : EventStream) : Runtime :=
  mk_runtime (fun _ _ => inr tt)
             (fun _ _ _ _ => inr (mk_response events))
             (fun _ => "invalid start byte").

(** A service that refuses every invocation with [e]. *)
Definition refusing (e : exn) : Runtime :=
  mk_runtime (fun _ _ => inr tt)
             (fun _ _ _ _ => inl e)
             (fun _ => "invalid start byte").

(** An SDK that cannot build the client: [boto3.client] raises [e]. *)
Definition clientless (e : exn) : Runtime :=
  mk_runtime (fun _ _ => inl e)
             (fun _ _ _ _ => inr (mk_response StopIteration))
             (fun _ => "invalid start byte").

Definition derivative_events : list Event :=
  [text_event "The "; text_event "derivative "; text_event "is..."].

Definition throttled : exn :=
  mk_exn "EventStreamError" "An error occurred (throttlingException)".

(** An event whose payload is the single byte 0xFF, which no UTF-8 text
    holds. *)
Definition garbled_event : Event :=
  mk_event (Some (mk_chunk (Some [xff]) [])) [].

(** A trace event of the tracing feature: no ['chunk'] key. *)
Definition trace_event : Event :=
  mk_event None [("trace", JDict [("agentId", JStr "AGENT0001")])].

End TestAgent.

(** ** [src/backend/create-opensearch-index.py] *)
Module CreateIndex.
Import Py.
Local Open Scope py_scope.

Definition REGION : string := "eu-west-1".
Definition COLLECTION_NAME : string := "quickbook-vectors".
Definition INDEX_NAME : string := "textbook-index".

(** One entry of [response['collectionDetails']]; a collection that is not
    active yet has no ['collectionEndpoint'] key. *)
Record CollectionDetail : Type := mk_detail {
  collectionEndpoint : option string;
  detail_other_keys : list (string * json)
}.

Record BatchGetCollectionResponse : Type := mk_batch {
  collectionDetails : list CollectionDetail
}.

Record Credentials : Type := mk_credentials {
  access_key : string;
  secret_key : string;
  token : option string
}.

(** The objects the script builds and never looks into are held by the
    arguments they were built from. *)
Record AWSV4SignerAuth : Type := mk_auth {
  auth_credentials : option Credentials;
  auth_region : string;
  auth_service : string
}.

Record OpenSearch : Type := mk_client {
  hosts : list (string * Z);
  http_auth : AWSV4SignerAuth;
  use_ssl : bool;
  verify_certs : bool;
  connection_class : string;
  timeout : Z
}.

Inductive call : Type :=
| boto3_client (service_name region_name : string)
| batch_get_collection (names : list string)
| get_credentials
| new_AWSV4SignerAuth (auth : AWSV4SignerAuth)
| new_OpenSearch (client : OpenSearch)
| indices_create (client : OpenSearch) (index : string) (body : json).

(** The world a run meets: how the SDKs and the services answer each call,
    and the text [json.dumps(response, indent=2)] gives. *)
Record Runtime : Type := mk_runtime {
  new_client : string -> string -> exn + unit;
  collections : list string -> exn + BatchGetCollectionResponse;
  ambient_credentials : exn + option Credentials;
  signer : AWSV4SignerAuth -> exn + unit;
  connection : OpenSearch -> exn + unit;
  create_answer : OpenSearch -> string -> json -> exn + json;
  json_dumps : json -> string
}.

(** [index_body], lines 32-54. *)
Definition index_body : json :=
  JDict [
    ("settings", JDict [
      ("index.knn", JBool true)
    ]);
    ("mappings", JDict [
      ("properties", JDict [
        ("embedding", JDict [
          ("type", JStr "knn_vector");
          ("dimension", JInt 1536);
          ("method", JDict [
            ("engine", JStr "faiss");
            ("name", JStr "hnsw")
          ])
        ]);
        ("content", JDict [
          ("type", JStr "text")
        ]);
        ("metadata", JDict [
          ("type", JStr "object")
        ])
      ])
    ])
  ].

(** [response['collectionDetails'][0]['collectionEndpoint']], line 13. *)
Definition endpoint_of (response : BatchGetCollectionResponse) : M call string :=
  detail <- getitem (collectionDetails response) 0 ;;
  match collectionEndpoint detail with
  | Some endpoint => ret endpoint
  | None => raise (mk_exn "KeyError" "'collectionEndpoint'")
  end.

(** Lines 11-29: everything up to the client. *)
Definition connect (rt : Runtime) : M call OpenSearch :=
  sdk (boto3_client "opensearchserverless" REGION)
      (new_client rt "opensearchserverless" REGION) ;;
  response <- sdk (batch_get_collection [COLLECTION_NAME])
                  (collections rt [COLLECTION_NAME]) ;;
  endpoint <- endpoint_of response ;;
  let host := replace "https://" "" endpoint in
  print ("Collection endpoint: " ++ endpoint) ;;
  credentials <- sdk get_credentials (ambient_credentials rt) ;;
  let auth := mk_auth credentials REGION "aoss" in
  sdk (new_AWSV4SignerAuth auth) (signer rt auth) ;;
  let client := mk_client [(host, 443%Z)] auth true true
                          "RequestsHttpConnection" 300 in
  sdk (new_OpenSearch client) (connection rt client) ;;
  ret client.

(** Lines 56-65: the try block around [client.indices.create]. *)
Definition create_index (rt : Runtime) (client : OpenSearch) : M call unit :=
  try_except
    (response <- sdk (indices_create client INDEX_NAME index_body)
                     (create_answer rt client INDEX_NAME index_body) ;;
     print ("✅ Index '" ++ INDEX_NAME ++ "' created successfully!") ;;
     print (json_dumps rt response))
    (fun e =>
       if contains "resource_already_exists_exception" (exn_str e) then
         print ("✅ Index '" ++ INDEX_NAME ++ "' already exists")
       else
         (print ("❌ Error: " ++ exn_str e) ;;
          raise e)).

Definition main (rt : Runtime) : M call unit :=
  client <- connect rt ;;
  create_index rt client.

(** A run of the script from the shell: the trace starts empty. *)
Definition run (rt : Runtime) : trace call * outcome unit := main rt [].

(** *** What a trace shows *)

(** The index-creation calls of a trace. *)
Fixpoint created (t : trace call) : list (OpenSearch * string * json) :=
  match t with
  | [] => []
  | Call (indices_create client index body) :: rest =>
      (client, index, body) :: created rest
  | _ :: rest => created rest
  end.

(** The search clients a trace builds. *)
Fixpoint clients (t : trace call) : list OpenSearch :=
  match t with
  | [] => []
  | Call (new_OpenSearch client) :: rest => client :: clients rest
  | _ :: rest => clients rest
  end.

(** *** Mock services *)

(** A collection whose lookup returns [details] and whose index-creation
    call answers [answer]; every other call succeeds. *)
Definition mock (details : list CollectionDetail) (answer : exn + json)
  : Runtime :=
  mk_runtime (fun _ _ => inr tt)
             (fun _ => inr (mk_batch details))
             (inr (Some (mk_credentials "AKIAEXAMPLE" "secret" None)))
             (fun _ => inr tt)
             (fun _ => inr tt)
             (fun _ _ _ => answer)
             (fun _ => "{...}").

Definition active (endpoint : string) : CollectionDetail :=
  mk_detail (Some endpoint) [("name", JStr COLLECTION_NAME)].

(** A collection service whose lookup raises [e]. *)
Definition lookup_failing (e : exn) : Runtime :=
  mk_runtime (fun _ _ => inr tt)
             (fun _ => inl e)
             (inr None)
             (fun _ => inr tt)
             (fun _ => inr tt)
             (fun _ _ _ => inl e)
             (fun _ => "{...}").

(** No ambient credentials: the lookup of credentials gives [None] and the
    signer refuses it. *)
Definition without_credentials (endpoint : string) : Runtime :=
  mk_runtime (fun _ _ => inr tt)
             (fun _ => inr (mk_batch [mk_detail (Some endpoint) []]))
             (inr None)
             (fun _ => inl (mk_exn "ValueError" "Credentials cannot be empty"))
             (fun _ => inr tt)
             (fun _ _ _ => inr JNull)
             (fun _ => "null").

Definition acknowledged : json :=
  JDict [("acknowledged", JBool true); ("index", JStr INDEX_NAME)].

Definition already_exists : exn :=
  mk_exn "RequestError"
         "RequestError(400, 'resource_already_exists_exception', 'index exists')".

Definition forbidden : exn :=
  mk_exn "AuthorizationException" "AuthorizationException(403, 'Forbidden')".

Definition example_endpoint : string :=
  "https://k9x2.eu-west-1.aoss.amazonaws.com".

End CreateIndex.

(** * Properties *)

(** ** Strings and runs *)
Module PyFacts.
Import Py.

(** The string operations on the values the interpreter gives. *)
Example replace_every_occurrence : replace "aa" "b" "aaaaa" = "bba".
Proof. reflexivity. Qed.

Example replace_empty_pattern : replace "" "-" "abc" = "-a-b-c-".
Proof. reflexivity. Qed.

Example contains_inside :
  contains "resource_already_exists_exception"
           "RequestError(400, 'resource_already_exists_exception', 'index exists')"
  = true.
Proof. reflexivity. Qed.

Example utf8_valid_examples :
  utf8_valid (encode "✅ Index") = true
  /\ utf8_valid [xff] = false
  /\ utf8_valid [xc0; x80] = false
  /\ utf8_valid [xed; xa0; x80] = false
  /\ utf8_valid [xe2; x9c] = false
  /\ utf8_valid [xf4; x90; x80; x80] = false.
Proof. repeat split. Qed.

Lemma append_empty_r (s : string) : s ++ "" = s.
Proof.
  induction s as [| c s IH]; simpl.
  - reflexivity.
  - now rewrite IH.
Qed.

Lemma append_assoc (s1 s2 s3 : string) : (s1 ++ s2) ++ s3 = s1 ++ (s2 ++ s3).
Proof.
  induction s1 as [| c s1 IH]; simpl.
  - reflexivity.
  - now rewrite IH.
Qed.

Lemma prefix_append (s rest : string) : prefix s (s ++ rest) = true.
Proof.
  induction s as [| c s IH]; simpl.
  - now destruct rest.
  - destruct (ascii_dec c c) as [_ | Hne]; [exact IH | now elim Hne].
Qed.

(** While an occurrence is being dropped, [replace_from] does not look at
    the characters it passes. *)
Lemma replace_from_skip (old new pre rest : string) :
  replace_from old new (String.length pre) (pre ++ rest)
  = replace_from old new 0 rest.
Proof.
  induction pre as [| c pre IH]; simpl.
  - reflexivity.
  - exact IH.
Qed.

(** A string that holds no occurrence of [old] is left as it is. *)
Lemma replace_absent (old new s : string) :
  old <> "" -> contains old s = false -> replace old new s = s.
Proof.
  intros Hold. unfold replace.
  induction s as [| c s IH]; simpl; intros H.
  - destruct old; [now elim Hold | reflexivity].
  - apply orb_false_iff in H. destruct H as [Hp Hs].
    change (match old with
            | "" => true
            | String a s1' =>
                if ascii_dec a c then prefix s1' s else false
            end) with (prefix old (String c s)) in *.
    rewrite Hp. now rewrite IH.
Qed.

(** An occurrence at the front is replaced and the scan goes on behind it. *)
Lemma replace_front (old new rest : string) :
  old <> "" -> replace old new (old ++ rest) = new ++ replace old new rest.
Proof.
  intros Hold. unfold replace.
  destruct old as [| c old]; [now elim Hold |].
  change (String c old ++ rest) with (String c (old ++ rest)).
  cbn [replace_from].
  change (String c (old ++ rest)) with (String c old ++ rest).
  rewrite prefix_append. cbn [String.length].
  now rewrite replace_from_skip.
Qed.

End PyFacts.

(** ** The agent tester *)
Module TesterFacts.
Import Py PyFacts TestAgent.
Local Open Scope py_scope.

(** One turn of the loop, case by case. *)
Lemma on_event_run (rt : Runtime) (event : Event) (completion : string)
      (t : trace call) :
  on_event rt event completion t
  = match payload event with
    | None => (t, Return completion)
    | Some b =>
        if utf8_valid b then
          ((t ++ [Stdout (string_of_list_byte b)])%list,
           Return (completion ++ string_of_list_byte b))
        else
          (t, Raise (mk_exn "UnicodeDecodeError" (decode_error_text rt b)))
    end.
Proof.
  unfold on_event, payload.
  destruct (chunk event) as [c |]; [| reflexivity].
  destruct (bytes c) as [b |]; [| reflexivity].
  unfold bind, decode, print_end, emit.
  destruct (utf8_valid b); cbn; [| reflexivity].
  now rewrite append_empty_r.
Qed.

(** The loop only appends to the trace, and what it appends and how it ends
    do not depend on what was there before. *)
Lemma for_event_frame (rt : Runtime) (events : EventStream) :
  forall (completion : string) (t : trace call),
    for_event rt events completion t
    = ((t ++ fst (for_event rt events completion []))%list,
       snd (for_event rt events completion [])).
Proof.
  induction events as [| event rest IH | e]; intros completion t.
  - reflexivity.
  - cbn [for_event]. unfold bind, emit. rewrite !on_event_run.
    destruct (payload event) as [b |].
    + destruct (utf8_valid b).
      * rewrite IH. rewrite (IH _ (_ ++ _)%list). cbn [fst snd].
        now rewrite <- !app_assoc.
      * reflexivity.
    + rewrite IH. rewrite (IH _ (_ ++ _)%list). cbn [fst snd].
      now rewrite <- !app_assoc.
  - reflexivity.
Qed.

(** The loop never leaves through [sys.exit]. *)
Lemma for_event_no_exit (rt : Runtime) (events : EventStream) :
  forall (completion : string) (t : trace call) (n : Z),
    snd (for_event rt events completion t) <> SysExit n.
Proof.
  induction events as [| event rest IH | e]; intros completion t n.
  - discriminate.
  - cbn [for_event]. unfold bind, emit. rewrite on_event_run.
    destruct (payload event) as [b |]; [destruct (utf8_valid b) |];
      solve [apply IH | discriminate].
  - discriminate.
Qed.

(** Well-formed events are consumed one after the other: each is pulled,
    its fragment written at once and appended to [completion]; then the
    rest of the stream is served. *)
Lemma for_event_events_then (rt : Runtime) (events : list Event)
      (tail : EventStream) :
  forallb well_formed events = true ->
  forall (completion : string) (t : trace call),
    for_event rt (events_then events tail) completion t
    = for_event rt tail (completion ++ joined (fragments events))
                (t ++ flat_map consumed events)%list.
Proof.
  induction events as [| event rest IH]; intros Hwf completion t.
  - cbn. now rewrite append_empty_r, app_nil_r.
  - cbn [forallb] in Hwf. apply andb_true_iff in Hwf. destruct Hwf as [Hev Hrest].
    cbn [events_then for_event fragments flat_map]. unfold bind, emit.
    rewrite on_event_run. unfold well_formed, consumed in *.
    destruct (payload event) as [b |].
    + rewrite Hev. rewrite (IH Hrest). cbn [joined].
      rewrite append_assoc. f_equal. now rewrite <- !app_assoc.
    + rewrite (IH Hrest). f_equal. now rewrite <- !app_assoc.
Qed.

Lemma for_event_stream_of (rt : Runtime) (events : list Event)
      (completion : string) (t : trace call) :
  forallb well_formed events = true ->
  for_event rt (stream_of events) completion t
  = ((t ++ flat_map consumed events ++ [Call (next (inr None))])%list,
     Return (completion ++ joined (fragments events))).
Proof.
  intros Hwf. unfold stream_of. rewrite (for_event_events_then rt _ _ Hwf).
  cbn. unfold bind, emit, ret. now rewrite <- app_assoc.
Qed.

(** A stream that breaks after well-formed events: they are consumed as
    above, then the failing pull raises out of the loop. *)
Lemma for_event_broken (rt : Runtime) (events : list Event) (e : exn)
      (completion : string) (t : trace call) :
  forallb well_formed events = true ->
  for_event rt (events_then events (Broken e)) completion t
  = ((t ++ flat_map consumed events ++ [Call (next (inl e))])%list, Raise e).
Proof.
  intros Hwf. rewrite (for_event_events_then rt _ _ Hwf).
  cbn. unfold bind, emit, raise. now rewrite <- app_assoc.
Qed.

(** A payload that is not UTF-8 raises [UnicodeDecodeError] out of the loop
    before anything is written for its event; what follows in the stream is
    never pulled. *)
Lemma for_event_garbled (rt : Runtime) (events : list Event) (event : Event)
      (b : byte_string) (rest : EventStream) (completion : string)
      (t : trace call) :
  forallb well_formed events = true ->
  payload event = Some b ->
  utf8_valid b = false ->
  for_event rt (events_then events (Yield event rest)) completion t
  = ((t ++ flat_map consumed events ++ [Call (next (inr (Some event)))])%list,
     Raise (mk_exn "UnicodeDecodeError" (decode_error_text rt b))).
Proof.
  intros Hwf Hpayload Hbad. rewrite (for_event_events_then rt _ _ Hwf).
  cbn [for_event]. unfold bind, emit. rewrite on_event_run, Hpayload, Hbad.
  now rewrite <- app_assoc.
Qed.

(** The script with its two mandatory arguments is [test_agent] on them. *)
Lemma run_arguments (rt : Runtime) (prog a b : string) (rest : list string) :
  run rt (prog :: a :: b :: rest)
  = test_agent rt a b
      (match rest with [] => "What is a derivative?" | q :: _ => q end) [].
Proof. destruct rest; reflexivity. Qed.

(** A run of [test_agent] once the client is built, by how the service
    answers and how the loop ends. *)
Lemma test_agent_run (rt : Runtime) (a b q : string) :
  new_client rt "bedrock-agent-runtime" "eu-west-1" = inr tt ->
  test_agent rt a b q []
  = let opening :=
      [Call (boto3_client "bedrock-agent-runtime" "eu-west-1");
       Stdout ("Testing Agent..." ++ LF);
       Stdout ("Question: " ++ q ++ LF ++ LF);
       Call (invoke_agent a b "test-session-123" q)] in
    match agent_answer rt a b "test-session-123" q with
    | inl e =>
        ((opening ++ [Stdout ("Error: " ++ exn_str e ++ LF)])%list, SysExit 1)
    | inr response =>
        let loop := for_event rt (completion response) "" [] in
        let shown := (opening ++ Stdout ("Response:" ++ LF) :: fst loop)%list in
        match snd loop with
        | Return _ => ((shown ++ [Stdout (LF ++ LF)])%list, Return tt)
        | Raise e =>
            ((shown ++ [Stdout ("Error: " ++ exn_str e ++ LF)])%list, SysExit 1)
        | SysExit n => (shown, SysExit n)
        end
    end.
Proof.
  intros Hclient. unfold test_agent, bind, sdk, try_except, print, print_end, emit.
  rewrite Hclient. cbn [app].
  rewrite !append_assoc.
  destruct (agent_answer rt a b "test-session-123" q) as [e | response].
  - cbn. rewrite ?append_assoc. reflexivity.
  - rewrite for_event_frame.
    destruct (for_event rt (completion response) "" []) as [w [c | e | n]];
      cbn; rewrite ?append_assoc; reflexivity.
Qed.

(** *** Reading traces *)

Lemma stdout_app (t1 t2 : trace call) :
  stdout (t1 ++ t2)%list = (stdout t1 ++ stdout t2)%list.
Proof.
  induction t1 as [| [text | c] t1 IH]; cbn; [reflexivity | now rewrite IH | exact IH].
Qed.

Lemma invocations_app (t1 t2 : trace call) :
  invocations (t1 ++ t2)%list = (invocations t1 ++ invocations t2)%list.
Proof.
  induction t1 as [| [text | [s r | a b s q | r]] t1 IH]; cbn;
    solve [reflexivity | exact IH | now rewrite IH].
Qed.

Lemma In_invocations (t : trace call) (a b s q : string) :
  In (Call (invoke_agent a b s q)) t <-> In (a, b, s, q) (invocations t).
Proof.
  induction t as [| [text | [s' r' | a' b' s' q' | r']] t IH]; cbn.
  - tauto.
  - rewrite <- IH. split; [intros [H | H]; [discriminate | exact H] | now right].
  - rewrite <- IH. split; [intros [H | H]; [discriminate | exact H] | now right].
  - rewrite <- IH. split; (intros [H | H]; [left; congruence | now right]).
  - rewrite <- IH. split; [intros [H | H]; [discriminate | exact H] | now right].
Qed.

Lemma stdout_consumed (events : list Event) :
  stdout (flat_map consumed events) = fragments events.
Proof.
  induction events as [| event rest IH]; [reflexivity |].
  cbn [flat_map fragments]. rewrite stdout_app, IH.
  unfold consumed. now destruct (payload event).
Qed.

Lemma after_exhaustion_consumed (events : list Event) (t : trace call) :
  after_exhaustion (flat_map consumed events ++ t)%list = after_exhaustion t.
Proof.
  induction events as [| event rest IH]; [reflexivity |].
  cbn [flat_map]. rewrite <- app_assoc.
  unfold consumed. destruct (payload event); exact IH.
Qed.

(** The loop itself never invokes the agent. *)
Lemma for_event_invokes_nothing (rt : Runtime) (events : EventStream) :
  forall completion : string,
    invocations (fst (for_event rt events completion [])) = [].
Proof.
  induction events as [| event rest IH | e]; intros completion.
  - reflexivity.
  - cbn [for_event]. unfold bind, emit. rewrite on_event_run.
    destruct (payload event) as [b |]; [destruct (utf8_valid b) |];
      try reflexivity; rewrite for_event_frame; cbn [fst];
      rewrite invocations_app; apply IH.
  - reflexivity.
Qed.

(** Every run invokes the agent at most once, and only with the session
    identifier written in the script. *)
Lemma invocations_run (rt : Runtime) (argv : list string) :
  invocations (fst (run rt argv))
  = match argv with
    | _ :: a :: b :: rest =>
        match new_client rt "bedrock-agent-runtime" "eu-west-1" with
        | inr _ =>
            [(a, b, "test-session-123",
              match rest with [] => "What is a derivative?" | q :: _ => q end)]
        | inl _ => []
        end
    | _ => []
    end.
Proof.
  destruct argv as [| prog [| a [| b rest]]]; try reflexivity.
  rewrite run_arguments.
  destruct (new_client rt "bedrock-agent-runtime" "eu-west-1") as [e | []] eqn:Hclient.
  - unfold test_agent, bind, sdk. now rewrite Hclient.
  - rewrite (test_agent_run rt _ _ _ Hclient). cbv zeta.
    destruct (agent_answer rt a b "test-session-123" _) as [e | response];
      [reflexivity |].
    pose proof (for_event_invokes_nothing rt (completion response) "") as Hnone.
    destruct (snd (for_event rt (completion response) "" []));
      cbn [fst invocations app]; rewrite ?invocations_app, Hnone; reflexivity.
Qed.

(** *** The script on mock services *)

Example run_derivative :
  run (streaming (stream_of derivative_events))
      ["test-agent.py"; "AGENT0001"; "ALIAS001"]
  = ([Call (boto3_client "bedrock-agent-runtime" "eu-west-1");
      Stdout ("Testing Agent..." ++ LF);
      Stdout ("Question: What is a derivative?" ++ LF ++ LF);
      Call (invoke_agent "AGENT0001" "ALIAS001" "test-session-123"
                         "What is a derivative?");
      Stdout ("Response:" ++ LF);
      Call (next (inr (Some (text_event "The "))));
      Stdout "The ";
      Call (next (inr (Some (text_event "derivative "))));
      Stdout "derivative ";
      Call (next (inr (Some (text_event "is..."))));
      Stdout "is...";
      Call (next (inr None));
      Stdout (LF ++ LF)],
     Return tt).
Proof. reflexivity. Qed.

Example run_garbled :
  run (streaming (stream_of [text_event "The "; garbled_event; text_event "end"]))
      ["test-agent.py"; "AGENT0001"; "ALIAS001"; "Why?"]
  = ([Call (boto3_client "bedrock-agent-runtime" "eu-west-1");
      Stdout ("Testing Agent..." ++ LF);
      Stdout ("Question: Why?" ++ LF ++ LF);
      Call (invoke_agent "AGENT0001" "ALIAS001" "test-session-123" "Why?");
      Stdout ("Response:" ++ LF);
      Call (next (inr (Some (text_event "The "))));
      Stdout "The ";
      Call (next (inr (Some garbled_event)));
      Stdout ("Error: invalid start byte" ++ LF)],
     SysExit 1).
Proof. reflexivity. Qed.

Example run_trace_event :
  stdout (fst (run (streaming (stream_of [trace_event; text_event "Hi"; trace_event]))
                   ["test-agent.py"; "AGENT0001"; "ALIAS001"; "Why?"]))
  = ["Testing Agent..." ++ LF; "Question: Why?" ++ LF ++ LF; "Response:" ++ LF;
     "Hi"; LF ++ LF].
Proof. reflexivity. Qed.

(** *** The claims on the agent tester *)

(** C4. With fewer than two command-line arguments the tester prints the
    usage line and leaves with status 1, and nothing else happens: the
    trace holds no SDK call, so no client is built and the agent is not
    invoked. *)
Theorem too_few_arguments (rt : Runtime) (argv : list string) :
  (List.length (arguments argv) < 2)%nat ->
  run rt argv
  = ([Stdout ("Usage: python3 test-agent.py <agent-id> <alias-id> [question]" ++ LF)],
     SysExit 1)
  /\ calls (fst (run rt argv)) = []
  /\ exit_status (snd (run rt argv)) = 1%Z.
Proof.
  intros Hfew.
  destruct argv as [| prog [| a [| b rest]]]; cbn in Hfew; try lia;
    repeat split.
Qed.

Lemma too_few_arguments_witness :
  (List.length (arguments ["test-agent.py"; "AGENT0001"]) < 2)%nat
  /\ calls (fst (run (refusing throttled) ["test-agent.py"; "AGENT0001"])) = []
  /\ exit_status (snd (run (refusing throttled) ["test-agent.py"; "AGENT0001"])) = 1%Z.
Proof.
  assert (H : (List.length (arguments ["test-agent.py"; "AGENT0001"]) < 2)%nat)
    by (cbn; lia).
  split; [exact H |].
  exact (proj2 (too_few_arguments (refusing throttled) _ H)).
Defined.

(** C7. With exactly two command-line arguments the question sent to the
    agent is the fallback question; with a third argument it is that
    argument, as given. *)
Theorem question_default (rt : Runtime) (prog a b : string) :
  new_client rt "bedrock-agent-runtime" "eu-west-1" = inr tt ->
  invocations (fst (run rt [prog; a; b]))
  = [(a, b, "test-session-123", "What is a derivative?")]
  /\ forall (q : string) (more : list string),
       invocations (fst (run rt (prog :: a :: b :: q :: more)))
       = [(a, b, "test-session-123", q)].
Proof.
  intros Hclient. split; [| intros q more];
    rewrite invocations_run, Hclient; reflexivity.
Qed.

Lemma question_default_witness :
  invocations (fst (run (refusing throttled) ["test-agent.py"; "AGENT0001"; "ALIAS001"]))
  = [("AGENT0001", "ALIAS001", "test-session-123", "What is a derivative?")]
  /\ invocations (fst (run (refusing throttled)
                           ["test-agent.py"; "AGENT0001"; "ALIAS001"; "What is an integral?"]))
     = [("AGENT0001", "ALIAS001", "test-session-123", "What is an integral?")].
Proof.
  destruct (question_default (refusing throttled) "test-agent.py"
                             "AGENT0001" "ALIAS001" eq_refl) as [Hnone Hthird].
  split; [exact Hnone | exact (Hthird "What is an integral?" [])].
Defined.

(** C8. Whatever the arguments and whatever the service answers, an agent
    invocation carries the session identifier ['test-session-123']. *)
Theorem session_id_fixed (rt : Runtime) (argv : list string)
        (a b s q : string) :
  In (Call (invoke_agent a b s q)) (fst (run rt argv)) ->
  s = "test-session-123".
Proof.
  rewrite In_invocations, invocations_run.
  destruct argv as [| prog [| a' [| b' rest]]]; cbn [In]; try tauto.
  destruct (new_client rt "bedrock-agent-runtime" "eu-west-1"); cbn [In];
    [tauto |].
  intros [H | []]. congruence.
Qed.

Lemma session_id_fixed_witness :
  In (Call (invoke_agent "AGENT0001" "ALIAS001" "test-session-123" "Why?"))
     (fst (run (refusing throttled) ["test-agent.py"; "AGENT0001"; "ALIAS001"; "Why?"]))
  /\ "test-session-123" = "test-session-123".
Proof.
  assert (H : In (Call (invoke_agent "AGENT0001" "ALIAS001" "test-session-123" "Why?"))
                 (fst (run (refusing throttled)
                           ["test-agent.py"; "AGENT0001"; "ALIAS001"; "Why?"])))
    by (cbn; tauto).
  split; [exact H | exact (session_id_fixed _ _ _ _ _ _ H)].
Defined.

(** C9. An event without a ['chunk'] key, and a chunk without a ['bytes']
    key, go through the loop body with no error, no output and
    [completion] as it was; in a stream, such an event changes neither the
    text written nor how the loop ends. *)
Theorem events_without_text_skipped (rt : Runtime) :
  (forall other completion t,
      on_event rt (mk_event None other) completion t = (t, Return completion))
  /\ (forall other other' completion t,
        on_event rt (mk_event (Some (mk_chunk None other')) other) completion t
        = (t, Return completion))
  /\ (forall event rest completion t,
        chunk event = None
        \/ (exists c, chunk event = Some c /\ bytes c = None) ->
        stdout (fst (for_event rt (Yield event rest) completion t))
        = stdout (fst (for_event rt rest completion t))
        /\ snd (for_event rt (Yield event rest) completion t)
           = snd (for_event rt rest completion t)).
Proof.
  split; [reflexivity | split; [reflexivity |]].
  intros event rest completion t Hskip.
  assert (Hpayload : payload event = None).
  { unfold payload. destruct Hskip as [-> | (c & -> & ->)]; reflexivity. }
  cbn [for_event]. unfold bind, emit. rewrite on_event_run, Hpayload.
  rewrite for_event_frame, (for_event_frame rt rest completion t). cbn [fst snd].
  split; [| reflexivity].
  rewrite !stdout_app. cbn. now rewrite app_nil_r.
Qed.

(** C5. When the invocation of the agent raises, or the consumption of the
    response stream raises (the pull of the next event, or the decoding of
    a payload), the tester's last act is to print ["Error: "] followed by
    the exception's text, and it leaves with status 1. *)
Theorem failure_reported (rt : Runtime) (prog a b : string)
        (rest : list string) (e : exn) :
  let question :=
    match rest with [] => "What is a derivative?" | q :: _ => q end in
  new_client rt "bedrock-agent-runtime" "eu-west-1" = inr tt ->
  agent_answer rt a b "test-session-123" question = inl e
  \/ (exists response,
        agent_answer rt a b "test-session-123" question = inr response
        /\ snd (for_event rt (completion response) "" []) = Raise e) ->
  exists t,
    run rt (prog :: a :: b :: rest)
    = ((t ++ [Stdout ("Error: " ++ exn_str e ++ LF)%string])%list, SysExit 1)
    /\ exit_status (snd (run rt (prog :: a :: b :: rest))) = 1%Z.
Proof.
  intros question Hclient Hfail.
  rewrite run_arguments. fold question.
  rewrite (test_agent_run rt a b question Hclient). cbv zeta.
  destruct Hfail as [Hrefused | (response & Hanswer & Hraise)].
  - rewrite Hrefused. eexists. split; reflexivity.
  - rewrite Hanswer, Hraise. eexists. split; reflexivity.
Qed.

(** A stream that delivers one fragment and then breaks. *)
Lemma failure_reported_witness :
  exists t,
    run (streaming (events_then [text_event "The "] (Broken throttled)))
        ["test-agent.py"; "AGENT0001"; "ALIAS001"]
    = ((t ++ [Stdout ("Error: An error occurred (throttlingException)" ++ LF)%string])%list,
       SysExit 1)
    /\ exit_status
         (snd (run (streaming (events_then [text_event "The "] (Broken throttled)))
                   ["test-agent.py"; "AGENT0001"; "ALIAS001"])) = 1%Z.
Proof.
  apply (failure_reported
           (streaming (events_then [text_event "The "] (Broken throttled)))
           "test-agent.py" "AGENT0001" "ALIAS001" [] throttled).
  - reflexivity.
  - right. eexists. split; reflexivity.
Defined.

(** C1, as the script has it.  When the service streams [events] and ends
    the stream, every payload being well-formed UTF-8: each event is pulled
    and, if it carries text, its fragment is written at once, before the
    next pull; [completion] ends as the fragments joined in stream order;
    and once the stream is exhausted the only thing printed is a line
    break.  The accumulated text is never printed as such: standard output
    shows it as the fragments written one after the other between the
    ["Response:"] line and that line break. *)
Theorem answer_streamed (rt : Runtime) (prog a b : string)
        (rest : list string) (events : list Event) :
  let question :=
    match rest with [] => "What is a derivative?" | q :: _ => q end in
  new_client rt "bedrock-agent-runtime" "eu-west-1" = inr tt ->
  agent_answer rt a b "test-session-123" question
  = inr (mk_response (stream_of events)) ->
  forallb well_formed events = true ->
  (forall completion t,
      for_event rt (stream_of events) completion t
      = ((t ++ flat_map consumed events ++ [Call (next (inr None))])%list,
         Return (completion ++ joined (fragments events))))
  /\ run rt (prog :: a :: b :: rest)
     = (([Call (boto3_client "bedrock-agent-runtime" "eu-west-1");
          Stdout ("Testing Agent..." ++ LF)%string;
          Stdout ("Question: " ++ question ++ LF ++ LF)%string;
          Call (invoke_agent a b "test-session-123" question);
          Stdout ("Response:" ++ LF)%string]
         ++ flat_map consumed events
         ++ [Call (next (inr None)); Stdout (LF ++ LF)%string])%list,
        Return tt)
  /\ stdout (fst (run rt (prog :: a :: b :: rest)))
     = (["Testing Agent..." ++ LF; "Question: " ++ question ++ LF ++ LF;
         "Response:" ++ LF]%string
        ++ fragments events ++ [(LF ++ LF)%string])%list
  /\ after_exhaustion (fst (run rt (prog :: a :: b :: rest)))
     = [Stdout (LF ++ LF)].
Proof.
  intros question Hclient Hanswer Hwf.
  assert (Hloop : forall completion t,
             for_event rt (stream_of events) completion t
             = ((t ++ flat_map consumed events ++ [Call (next (inr None))])%list,
                Return (completion ++ joined (fragments events)))).
  { intros completion t. now apply for_event_stream_of. }
  assert (Hrun : run rt (prog :: a :: b :: rest)
                 = (([Call (boto3_client "bedrock-agent-runtime" "eu-west-1");
                      Stdout ("Testing Agent..." ++ LF)%string;
                      Stdout ("Question: " ++ question ++ LF ++ LF)%string;
                      Call (invoke_agent a b "test-session-123" question);
                      Stdout ("Response:" ++ LF)%string]
                     ++ flat_map consumed events
                     ++ [Call (next (inr None)); Stdout (LF ++ LF)%string])%list,
                    Return tt)).
  { rewrite run_arguments. fold question.
    rewrite (test_agent_run rt a b question Hclient). cbv zeta.
    rewrite Hanswer. cbn [completion]. rewrite Hloop. cbn [fst snd app].
    now rewrite <- app_assoc. }
  split; [exact Hloop | split; [exact Hrun |]].
  rewrite Hrun. cbn [fst]. split.
  - rewrite stdout_app, stdout_app, stdout_consumed. reflexivity.
  - cbn [app after_exhaustion]. now rewrite after_exhaustion_consumed.
Qed.

(** The stream of fragments "The ", "derivative ", "is...". *)
Lemma answer_streamed_witness :
  stdout (fst (run (streaming (stream_of derivative_events))
                   ["test-agent.py"; "AGENT0001"; "ALIAS001"]))
  = ["Testing Agent..." ++ LF; "Question: What is a derivative?" ++ LF ++ LF;
     "Response:" ++ LF; "The "; "derivative "; "is..."; LF ++ LF]
  /\ after_exhaustion (fst (run (streaming (stream_of derivative_events))
                                ["test-agent.py"; "AGENT0001"; "ALIAS001"]))
     = [Stdout (LF ++ LF)]
  /\ snd (for_event (streaming (stream_of derivative_events))
                    (stream_of derivative_events) "" [])
     = Return "The derivative is...".
Proof.
  destruct (answer_streamed (streaming (stream_of derivative_events))
                            "test-agent.py" "AGENT0001" "ALIAS001" []
                            derivative_events eq_refl eq_refl eq_refl)
    as (Hloop & _ & Hout & Hend).
  split; [exact Hout | split; [exact Hend |]].
  rewrite Hloop. reflexivity.
Defined.

(** C1 as the spec words it fails: on the stream "The ", "derivative ",
    "is..." the text accumulated is "The derivative is...", and after the
    stream is exhausted the tester writes a line break and nothing else; no
    single write of the run, before or after, holds the accumulated text. *)
Lemma completion_not_printed_at_end :
  let t := fst (run (streaming (stream_of derivative_events))
                    ["test-agent.py"; "AGENT0001"; "ALIAS001"]) in
  snd (for_event (streaming (stream_of derivative_events))
                 (stream_of derivative_events) "" [])
  = Return "The derivative is..."
  /\ stdout (after_exhaustion t) = [LF ++ LF]
  /\ forall text, In text (stdout t) ->
                  contains "The derivative is..." text = false.
Proof.
  cbv zeta. split; [reflexivity | split; [reflexivity |]].
  intros text Hin. vm_compute in Hin.
  repeat (destruct Hin as [<- | Hin]; [reflexivity |]).
  destruct Hin.
Qed.

End TesterFacts.

(** ** The index provisioner *)
Module ProvisionerFacts.
Import Py PyFacts CreateIndex.
Local Open Scope py_scope.

Lemma created_app (t1 t2 : trace call) :
  created (t1 ++ t2)%list = (created t1 ++ created t2)%list.
Proof.
  induction t1 as [| [text | []] t1 IH]; cbn;
    solve [reflexivity | exact IH | now rewrite IH].
Qed.

Lemma clients_app (t1 t2 : trace call) :
  clients (t1 ++ t2)%list = (clients t1 ++ clients t2)%list.
Proof.
  induction t1 as [| [text | []] t1 IH]; cbn;
    solve [reflexivity | exact IH | now rewrite IH].
Qed.

Lemma In_created (t : trace call) (client : OpenSearch) (index : string)
      (body : json) :
  In (Call (indices_create client index body)) t
  <-> In (client, index, body) (created t).
Proof.
  induction t as [| [text | []] t IH]; cbn; try tauto;
    rewrite <- IH; split;
    solve [ intros [H | H]; [discriminate | exact H]
          | intros [H | H]; [left; congruence | now right]
          | now right ].
Qed.

Lemma In_clients (t : trace call) (client : OpenSearch) :
  In (Call (new_OpenSearch client)) t <-> In client (clients t).
Proof.
  induction t as [| [text | []] t IH]; cbn; try tauto;
    rewrite <- IH; split;
    solve [ intros [H | H]; [discriminate | exact H]
          | intros [H | H]; [left; congruence | now right]
          | now right ].
Qed.

(** The try block, by how the service answers the creation call. *)
Lemma create_index_run (rt : Runtime) (client : OpenSearch) (t : trace call) :
  create_index rt client t
  = let create := Call (indices_create client INDEX_NAME index_body) in
    match create_answer rt client INDEX_NAME index_body with
    | inr response =>
        ((t ++ [create;
                Stdout ("✅ Index 'textbook-index' created successfully!" ++ LF);
                Stdout (json_dumps rt response ++ LF)])%list,
         Return tt)
    | inl e =>
        if contains "resource_already_exists_exception" (exn_str e) then
          ((t ++ [create;
                  Stdout ("✅ Index 'textbook-index' already exists" ++ LF)])%list,
           Return tt)
        else
          ((t ++ [create; Stdout ("❌ Error: " ++ exn_str e ++ LF)])%list,
           Raise e)
    end.
Proof.
  unfold create_index, try_except, bind, sdk, print, print_end, emit.
  destruct (create_answer rt client INDEX_NAME index_body) as [e | response].
  - destruct (contains "resource_already_exists_exception" (exn_str e));
      cbn; rewrite <- ?app_assoc, ?append_assoc; reflexivity.
  - cbn. now rewrite <- !app_assoc.
Qed.

(** Lines 11-29 laid open, and their case analysis on how each SDK call
    answers: [failed] closes the branches in which a call raised. *)
Ltac open_connect :=
  unfold connect, endpoint_of, getitem;
  unfold bind, sdk, print, print_end, emit, ret, raise.

Ltac on_answer x pat failed :=
  destruct x as pat; cbv beta iota; [failed |].

(** What the script has done when the client is ready. *)
Lemma connect_success (rt : Runtime) (t : trace call) (client : OpenSearch) :
  connect rt [] = (t, Return client) ->
  exists response detail others endpoint credentials,
    collections rt [COLLECTION_NAME] = inr response
    /\ collectionDetails response = detail :: others
    /\ collectionEndpoint detail = Some endpoint
    /\ client = mk_client [(replace "https://" "" endpoint, 443%Z)]
                          (mk_auth credentials REGION "aoss") true true
                          "RequestsHttpConnection" 300
    /\ t = [Call (boto3_client "opensearchserverless" REGION);
            Call (batch_get_collection [COLLECTION_NAME]);
            Stdout ("Collection endpoint: " ++ endpoint ++ LF);
            Call get_credentials;
            Call (new_AWSV4SignerAuth (mk_auth credentials REGION "aoss"));
            Call (new_OpenSearch client)].
Proof.
  open_connect.
  on_answer (new_client rt "opensearchserverless" REGION) ipattern:([e | []])
            discriminate.
  on_answer (collections rt [COLLECTION_NAME]) ipattern:([e | response])
            discriminate.
  destruct (collectionDetails response) as [| detail others] eqn:Hdetails;
    cbn [nth_error]; cbv beta iota; [discriminate |].
  destruct (collectionEndpoint detail) as [endpoint |] eqn:Hendpoint;
    cbv beta iota; [| discriminate].
  on_answer (ambient_credentials rt) ipattern:([e | credentials]) discriminate.
  on_answer (signer rt (mk_auth credentials REGION "aoss")) ipattern:([e | []])
            discriminate.
  destruct (connection rt _) as [e | []]; cbv beta iota; [discriminate |].
  intros H. injection H as Ht Hclient. subst t client.
  exists response, detail, others, endpoint, credentials.
  rewrite Hdetails. repeat split; exact Hendpoint.
Qed.

(** Until the client is ready no index is created, and a client the script
    builds is built for the host computed from the first collection
    detail. *)
Lemma connect_trace (rt : Runtime) :
  created (fst (connect rt [])) = []
  /\ forall client, In client (clients (fst (connect rt []))) ->
       exists response detail others endpoint,
         collections rt [COLLECTION_NAME] = inr response
         /\ collectionDetails response = detail :: others
         /\ collectionEndpoint detail = Some endpoint
         /\ hosts client = [(replace "https://" "" endpoint, 443%Z)].
Proof.
  open_connect.
  on_answer (new_client rt "opensearchserverless" REGION) ipattern:([e | []])
            ltac:(split; [reflexivity | intros ? []]).
  on_answer (collections rt [COLLECTION_NAME]) ipattern:([e | response])
            ltac:(split; [reflexivity | intros ? []]).
  destruct (collectionDetails response) as [| detail others] eqn:Hdetails;
    cbn [nth_error]; cbv beta iota; [split; [reflexivity | intros ? []] |].
  destruct (collectionEndpoint detail) as [endpoint |] eqn:Hendpoint;
    cbv beta iota; [| split; [reflexivity | intros ? []]].
  on_answer (ambient_credentials rt) ipattern:([e | credentials])
            ltac:(split; [reflexivity | intros ? []]).
  on_answer (signer rt (mk_auth credentials REGION "aoss")) ipattern:([e | []])
            ltac:(split; [reflexivity | intros ? []]).
  destruct (connection rt _) as [e | []]; cbv beta iota;
    (split; [reflexivity |]); cbn; intros client [<- | []];
    exists response, detail, others, endpoint; rewrite Hdetails;
    repeat split; try exact Hendpoint.
Qed.

(** The index-creation calls of a run: one, with the script's index name
    and body, when the client is ready; none otherwise. *)
Lemma created_run (rt : Runtime) :
  created (fst (run rt))
  = match snd (connect rt []) with
    | Return client => [(client, INDEX_NAME, index_body)]
    | _ => []
    end.
Proof.
  unfold run, main, bind.
  pose proof (proj1 (connect_trace rt)) as Hnone.
  destruct (connect rt []) as [t [client | e | n]]; cbn [fst snd] in *;
    try exact Hnone.
  rewrite create_index_run. cbv zeta.
  destruct (create_answer rt client INDEX_NAME index_body) as [e | response];
    [destruct (contains "resource_already_exists_exception" (exn_str e)) |];
    cbn [fst]; rewrite created_app, Hnone; reflexivity.
Qed.

(** The try block builds no client. *)
Lemma clients_run (rt : Runtime) :
  clients (fst (run rt)) = clients (fst (connect rt [])).
Proof.
  unfold run, main, bind.
  destruct (connect rt []) as [t [client | e | n]]; cbn [fst]; try reflexivity.
  rewrite create_index_run. cbv zeta.
  destruct (create_answer rt client INDEX_NAME index_body) as [e | response];
    [destruct (contains "resource_already_exists_exception" (exn_str e)) |];
    cbn [fst]; rewrite clients_app; cbn; now rewrite app_nil_r.
Qed.

(** *** The script on mock services *)

Example run_created :
  stdout (fst (run (mock [active example_endpoint] (inr acknowledged))))
  = ["Collection endpoint: https://k9x2.eu-west-1.aoss.amazonaws.com" ++ LF;
     "✅ Index 'textbook-index' created successfully!" ++ LF;
     "{...}" ++ LF]
  /\ snd (run (mock [active example_endpoint] (inr acknowledged))) = Return tt.
Proof. split; reflexivity. Qed.

Example run_forbidden :
  stdout (fst (run (mock [active example_endpoint] (inl forbidden))))
  = ["Collection endpoint: https://k9x2.eu-west-1.aoss.amazonaws.com" ++ LF;
     "❌ Error: AuthorizationException(403, 'Forbidden')" ++ LF]
  /\ snd (run (mock [active example_endpoint] (inl forbidden))) = Raise forbidden.
Proof. split; reflexivity. Qed.

Example run_not_active :
  run (mock [mk_detail None [("status", JStr "CREATING")];
             active example_endpoint] (inr acknowledged))
  = ([Call (boto3_client "opensearchserverless" REGION);
      Call (batch_get_collection [COLLECTION_NAME])],
     Raise (mk_exn "KeyError" "'collectionEndpoint'")).
Proof. reflexivity. Qed.

(** *** The claims on the index provisioner *)

(** C2. Once the client is ready, the outcome of the index-creation call
    decides the run.  The call succeeds: the success line is printed and the
    script ends normally.  The call raises an error whose text holds
    ['resource_already_exists_exception']: the index is reported as already
    existing and the script ends normally, nothing is propagated.  The call
    raises any other error: the error is printed and raised again, uncaught,
    so the process leaves with a non-zero status. *)
Theorem create_outcome_classified (rt : Runtime) (t : trace call)
        (client : OpenSearch) :
  connect rt [] = (t, Return client) ->
  let create := Call (indices_create client INDEX_NAME index_body) in
  let answer := create_answer rt client INDEX_NAME index_body in
  (forall response,
      answer = inr response ->
      run rt
      = ((t ++ [create;
                Stdout ("✅ Index 'textbook-index' created successfully!" ++ LF);
                Stdout (json_dumps rt response ++ LF)])%list,
         Return tt)
      /\ exit_status (snd (run rt)) = 0%Z)
  /\ (forall e,
        answer = inl e ->
        contains "resource_already_exists_exception" (exn_str e) = true ->
        run rt
        = ((t ++ [create;
                  Stdout ("✅ Index 'textbook-index' already exists" ++ LF)])%list,
           Return tt)
        /\ exit_status (snd (run rt)) = 0%Z)
  /\ (forall e,
        answer = inl e ->
        contains "resource_already_exists_exception" (exn_str e) = false ->
        run rt
        = ((t ++ [create; Stdout ("❌ Error: " ++ exn_str e ++ LF)])%list,
           Raise e)
        /\ exit_status (snd (run rt)) = 1%Z).
Proof.
  intros Hready create answer.
  assert (Hrun : run rt = create_index rt client t)
    by (unfold run, main, bind; now rewrite Hready).
  rewrite Hrun, create_index_run. cbv zeta. fold answer.
  repeat split; intros; subst answer;
    repeat match goal with H : _ = _ |- _ => rewrite H end; reflexivity.
Qed.

(** A service that acknowledges, one that reports the index as existing,
    one that refuses. *)
Lemma create_outcome_classified_witness :
  snd (run (mock [active example_endpoint] (inr acknowledged))) = Return tt
  /\ snd (run (mock [active example_endpoint] (inl already_exists))) = Return tt
  /\ snd (run (mock [active example_endpoint] (inl forbidden))) = Raise forbidden
  /\ exit_status (snd (run (mock [active example_endpoint] (inl forbidden)))) = 1%Z.
Proof.
  destruct (create_outcome_classified
              (mock [active example_endpoint] (inr acknowledged)) _ _ eq_refl)
    as (Hanswered & _ & _).
  destruct (Hanswered acknowledged eq_refl) as [Hcreated _].
  destruct (create_outcome_classified
              (mock [active example_endpoint] (inl already_exists)) _ _ eq_refl)
    as (_ & Hraised & _).
  destruct (Hraised already_exists eq_refl eq_refl) as [Hexists _].
  destruct (create_outcome_classified
              (mock [active example_endpoint] (inl forbidden)) _ _ eq_refl)
    as (_ & _ & Hother).
  destruct (Hother forbidden eq_refl eq_refl) as [Hfailed Hstatus].
  rewrite Hcreated, Hexists, Hfailed. repeat split.
Defined.

(** C3. Whenever a run issues the index-creation call, the index is
    ['textbook-index'] and the body is the script's literal: [index.knn] on
    in the settings, and exactly three mapped properties, a [knn_vector] of
    dimension 1536 with method HNSW on the FAISS engine, a [text] field and
    an [object] field. *)
Theorem create_body_is_schema (rt : Runtime) (client : OpenSearch)
        (index : string) (body : json) :
  In (Call (indices_create client index body)) (fst (run rt)) ->
  index = INDEX_NAME
  /\ body = index_body
  /\ keys body = ["settings"; "mappings"]
  /\ item "settings" body = Some (JDict [("index.knn", JBool true)])
  /\ option_map keys (item "mappings" body) = Some ["properties"]
  /\ option_map keys (at_path ["mappings"; "properties"] body)
     = Some ["embedding"; "content"; "metadata"]
  /\ at_path ["mappings"; "properties"; "embedding"] body
     = Some (JDict [("type", JStr "knn_vector");
                    ("dimension", JInt 1536);
                    ("method", JDict [("engine", JStr "faiss");
                                      ("name", JStr "hnsw")])])
  /\ at_path ["mappings"; "properties"; "content"] body
     = Some (JDict [("type", JStr "text")])
  /\ at_path ["mappings"; "properties"; "metadata"] body
     = Some (JDict [("type", JStr "object")]).
Proof.
  rewrite In_created, created_run.
  destruct (snd (connect rt [])) as [ready | e | n]; cbn [In]; try tauto.
  intros [H | []]. injection H as _ <- <-. repeat split.
Qed.

Lemma create_body_is_schema_witness :
  created (fst (run (mock [active example_endpoint] (inr acknowledged))))
  = [(mk_client [("k9x2.eu-west-1.aoss.amazonaws.com", 443%Z)]
                (mk_auth (Some (mk_credentials "AKIAEXAMPLE" "secret" None))
                         "eu-west-1" "aoss")
                true true "RequestsHttpConnection" 300,
      "textbook-index", index_body)]
  /\ at_path ["mappings"; "properties"; "embedding"] index_body
     = Some (JDict [("type", JStr "knn_vector");
                    ("dimension", JInt 1536);
                    ("method", JDict [("engine", JStr "faiss");
                                      ("name", JStr "hnsw")])]).
Proof.
  split; [reflexivity |].
  assert (Hin : In (Call (indices_create
                            (mk_client [("k9x2.eu-west-1.aoss.amazonaws.com", 443%Z)]
                               (mk_auth (Some (mk_credentials "AKIAEXAMPLE" "secret" None))
                                        "eu-west-1" "aoss")
                               true true "RequestsHttpConnection" 300)
                            "textbook-index" index_body))
                   (fst (run (mock [active example_endpoint] (inr acknowledged)))))
    by (cbn; tauto).
  destruct (create_body_is_schema _ _ _ _ Hin)
    as (_ & _ & _ & _ & _ & _ & Hvector & _).
  exact Hvector.
Defined.

(** C6. For a collection endpoint as the lookup returns it, ["https://"]
    followed by the host, the search client is built for the host: the
    scheme is stripped from the front and what follows it is passed on
    unchanged. *)
Theorem host_is_endpoint_stripped (rt : Runtime) (client : OpenSearch)
        (response : BatchGetCollectionResponse) (detail : CollectionDetail)
        (others : list CollectionDetail) (host : string) :
  collections rt [COLLECTION_NAME] = inr response ->
  collectionDetails response = detail :: others ->
  collectionEndpoint detail = Some ("https://" ++ host) ->
  contains "https://" host = false ->
  In (Call (new_OpenSearch client)) (fst (run rt)) ->
  hosts client = [(host, 443%Z)].
Proof.
  intros Hlookup Hdetails Hendpoint Hhost.
  rewrite In_clients, clients_run. intros Hin.
  destruct (proj2 (connect_trace rt) client Hin)
    as (response' & detail' & others' & endpoint
        & Hlookup' & Hdetails' & Hendpoint' & Hbuilt).
  rewrite Hlookup in Hlookup'. injection Hlookup' as <-.
  rewrite Hdetails in Hdetails'. injection Hdetails' as <- _.
  rewrite Hendpoint in Hendpoint'. injection Hendpoint' as <-.
  assert (Hstrip : replace "https://" "" ("https://" ++ host) = host).
  { rewrite replace_front by discriminate.
    now rewrite replace_absent by (discriminate || assumption). }
  rewrite Hbuilt. exact (f_equal (fun h => [(h, 443%Z)]) Hstrip).
Qed.

Lemma host_is_endpoint_stripped_witness :
  clients (fst (run (mock [active example_endpoint] (inr acknowledged))))
  = [mk_client [("k9x2.eu-west-1.aoss.amazonaws.com", 443%Z)]
               (mk_auth (Some (mk_credentials "AKIAEXAMPLE" "secret" None))
                        "eu-west-1" "aoss")
               true true "RequestsHttpConnection" 300]
  /\ hosts (mk_client [("k9x2.eu-west-1.aoss.amazonaws.com", 443%Z)]
                      (mk_auth (Some (mk_credentials "AKIAEXAMPLE" "secret" None))
                               "eu-west-1" "aoss")
                      true true "RequestsHttpConnection" 300)
     = [("k9x2.eu-west-1.aoss.amazonaws.com", 443%Z)].
Proof.
  split; [reflexivity |].
  apply (host_is_endpoint_stripped
           (mock [active example_endpoint] (inr acknowledged)) _
           (mk_batch [active example_endpoint]) (active example_endpoint) []
           "k9x2.eu-west-1.aoss.amazonaws.com"
           eq_refl eq_refl eq_refl eq_refl).
  cbn. tauto.
Defined.

(** C10. The endpoint is read from the first collection detail, whatever
    follows it: the access gives an endpoint exactly when the list has a
    first element and that element has a ['collectionEndpoint'] key.  On an
    empty list it raises [IndexError], on a first detail without the key
    [KeyError]; neither is inside a [try], so the run ends there with the
    exception uncaught, nothing printed and no index created. *)
Theorem first_detail_indexed (rt : Runtime) :
  (forall response t endpoint,
      endpoint_of response t = (t, Return endpoint)
      <-> exists detail others,
            collectionDetails response = detail :: others
            /\ collectionEndpoint detail = Some endpoint)
  /\ (forall response e,
        new_client rt "opensearchserverless" REGION = inr tt ->
        collections rt [COLLECTION_NAME] = inr response ->
        (collectionDetails response = []
         /\ e = mk_exn "IndexError" "list index out of range")
        \/ (exists detail others,
               collectionDetails response = detail :: others
               /\ collectionEndpoint detail = None
               /\ e = mk_exn "KeyError" "'collectionEndpoint'") ->
        run rt
        = ([Call (boto3_client "opensearchserverless" REGION);
            Call (batch_get_collection [COLLECTION_NAME])],
           Raise e)
        /\ exit_status (snd (run rt)) = 1%Z).
Proof.
  split.
  - intros response t endpoint.
    unfold endpoint_of, getitem, bind, ret, raise.
    destruct (collectionDetails response) as [| detail others]; cbn [nth_error].
    + split; [discriminate | intros (? & ? & H & _); discriminate].
    + destruct (collectionEndpoint detail) as [found |] eqn:Hfound.
      * split.
        -- intros H. injection H as <-. now exists detail, others.
        -- intros (d & o & H & Hd). injection H as <- <-.
           rewrite Hd in Hfound. now injection Hfound as <-.
      * split; [discriminate |].
        intros (d & o & H & Hd). injection H as <- <-. congruence.
  - intros response e Hclient Hlookup Hmissing.
    unfold run, main. open_connect. rewrite Hclient, Hlookup. cbv beta iota.
    destruct Hmissing as [[-> ->] | (detail & others & -> & Hnone & ->)].
    + split; reflexivity.
    + cbn [nth_error]. cbv beta iota. rewrite Hnone. split; reflexivity.
Qed.

Lemma first_detail_indexed_witness :
  run (mock [] (inr acknowledged))
  = ([Call (boto3_client "opensearchserverless" REGION);
      Call (batch_get_collection [COLLECTION_NAME])],
     Raise (mk_exn "IndexError" "list index out of range"))
  /\ created (fst (run (mock [] (inr acknowledged)))) = [].
Proof.
  destruct (proj2 (first_detail_indexed (mock [] (inr acknowledged)))
                  (mk_batch []) (mk_exn "IndexError" "list index out of range")
                  eq_refl eq_refl (or_introl (conj eq_refl eq_refl)))
    as [Hrun _].
  rewrite Hrun. split; reflexivity.
Defined.

End ProvisionerFacts.

(** * Further properties *)

(** ** The codec and [replace] *)
Module PyExtras.
Import Py PyFacts.

Lemma string_of_list_byte_app (a b : byte_string) :
  string_of_list_byte (a ++ b)%list
  = string_of_list_byte a ++ string_of_list_byte b.
Proof.
  unfold string_of_list_byte.
  induction a as [| x a IH]; cbn; [reflexivity | now rewrite IH].
Qed.

(** Well-formed bytes can be cut off the front: what follows is judged on
    its own. *)
Lemma utf8_valid_app (a b : byte_string) :
  utf8_valid a = true -> utf8_valid (a ++ b)%list = utf8_valid b.
Proof.
  remember (List.length a) as n eqn:Hn.
  revert a Hn. induction n as [n IH] using lt_wf_ind. intros a -> Hvalid.
  destruct a as [| b0 r0]; [reflexivity |].
  cbn [app]. cbn [utf8_valid] in Hvalid |- *.
  destruct (in_range 0 127 b0).
  { apply (IH (List.length r0)); cbn; auto. }
  destruct r0 as [| b1 r1]; [discriminate |]. cbn [app].
  destruct (in_range 194 223 b0).
  { apply andb_true_iff in Hvalid. destruct Hvalid as [-> Hvalid].
    apply (IH (List.length r1)); cbn; auto. }
  destruct r1 as [| b2 r2]; [discriminate |]. cbn [app].
  destruct (in_range 224 224 b0).
  { apply andb_true_iff in Hvalid. destruct Hvalid as [-> Hvalid].
    apply (IH (List.length r2)); cbn; auto. }
  destruct (in_range 225 236 b0 || in_range 238 239 b0).
  { apply andb_true_iff in Hvalid. destruct Hvalid as [-> Hvalid].
    apply (IH (List.length r2)); cbn; auto. }
  destruct (in_range 237 237 b0).
  { apply andb_true_iff in Hvalid. destruct Hvalid as [-> Hvalid].
    apply (IH (List.length r2)); cbn; auto. }
  destruct r2 as [| b3 r3]; [discriminate |]. cbn [app].
  destruct (in_range 240 240 b0).
  { apply andb_true_iff in Hvalid. destruct Hvalid as [-> Hvalid].
    apply (IH (List.length r3)); cbn; auto. }
  destruct (in_range 241 243 b0).
  { apply andb_true_iff in Hvalid. destruct Hvalid as [-> Hvalid].
    apply (IH (List.length r3)); cbn; auto. }
  destruct (in_range 244 244 b0); [| discriminate].
  apply andb_true_iff in Hvalid. destruct Hvalid as [-> Hvalid].
  apply (IH (List.length r3)); cbn; auto.
Qed.

(** Removing occurrences never makes a string longer. *)
Lemma replace_from_length (old : string) :
  old <> "" ->
  forall (s : string) (skip : nat),
    (String.length (replace_from old "" skip s) <= String.length s)%nat.
Proof.
  intros Hold. destruct old as [| c0 old']; [now elim Hold |].
  induction s as [| c s IH]; intros skip.
  - cbn. lia.
  - cbn [replace_from String.length].
    destruct skip as [| k].
    + destruct (prefix (String c0 old') (String c s)).
      * cbn [append]. specialize (IH (String.length old')). lia.
      * cbn [String.length]. specialize (IH 0%nat). lia.
    + specialize (IH k). lia.
Qed.

(** Where there is an occurrence, the result is strictly shorter. *)
Lemma replace_present_shorter (old s : string) :
  old <> "" ->
  contains old s = true ->
  (String.length (replace old "" s) < String.length s)%nat.
Proof.
  intros Hold. unfold replace.
  pose proof (replace_from_length old Hold) as Hle.
  destruct old as [| c0 old']; [now elim Hold |].
  induction s as [| c s IH]; intros Hin.
  - discriminate.
  - cbn [contains] in Hin. cbn [replace_from String.length].
    destruct (prefix (String c0 old') (String c s)).
    + cbn [append]. specialize (Hle s (String.length old')). lia.
    + cbn [orb] in Hin. cbn [String.length]. specialize (IH Hin). lia.
Qed.

End PyExtras.

(** ** More on the agent tester *)
Module TesterExtras.
Import Py PyFacts PyExtras TestAgent TesterFacts.
Local Open Scope py_scope.

(** X1. [boto3.client] is called before the [try] (line 7): when it raises,
    the exception leaves the script uncaught, nothing has been printed, not
    even the banner, and the agent is not invoked. *)
Theorem client_failure_uncaught (rt : Runtime) (prog a b : string)
        (rest : list string) (e : exn) :
  new_client rt "bedrock-agent-runtime" "eu-west-1" = inl e ->
  run rt (prog :: a :: b :: rest)
  = ([Call (boto3_client "bedrock-agent-runtime" "eu-west-1")], Raise e)
  /\ stdout (fst (run rt (prog :: a :: b :: rest))) = []
  /\ invocations (fst (run rt (prog :: a :: b :: rest))) = [].
Proof.
  intros Hclient.
  assert (Hrun : run rt (prog :: a :: b :: rest)
                 = ([Call (boto3_client "bedrock-agent-runtime" "eu-west-1")],
                    Raise e)).
  { rewrite run_arguments. unfold test_agent, bind, sdk. now rewrite Hclient. }
  rewrite Hrun. repeat split.
Qed.

Lemma client_failure_uncaught_witness :
  run (clientless (mk_exn "NoCredentialsError" "Unable to locate credentials"))
      ["test-agent.py"; "AGENT0001"; "ALIAS001"]
  = ([Call (boto3_client "bedrock-agent-runtime" "eu-west-1")],
     Raise (mk_exn "NoCredentialsError" "Unable to locate credentials")).
Proof.
  exact (proj1 (client_failure_uncaught
                  (clientless (mk_exn "NoCredentialsError"
                                      "Unable to locate credentials"))
                  "test-agent.py" "AGENT0001" "ALIAS001" [] _ eq_refl)).
Defined.

(** X2. When the stream breaks after some well-formed events, what was
    already written stays: standard output holds the three opening lines,
    the fragments received so far, and then the error line, which starts
    right behind the last fragment (no line break was written in between);
    the status is 1. *)
Theorem partial_answer_then_error (rt : Runtime) (prog a b : string)
        (rest : list string) (events : list Event) (e : exn) :
  let question :=
    match rest with [] => "What is a derivative?" | q :: _ => q end in
  new_client rt "bedrock-agent-runtime" "eu-west-1" = inr tt ->
  agent_answer rt a b "test-session-123" question
  = inr (mk_response (events_then events (Broken e))) ->
  forallb well_formed events = true ->
  stdout (fst (run rt (prog :: a :: b :: rest)))
  = (["Testing Agent..." ++ LF; "Question: " ++ question ++ LF ++ LF;
      "Response:" ++ LF]%string
     ++ fragments events ++ [("Error: " ++ exn_str e ++ LF)%string])%list
  /\ snd (run rt (prog :: a :: b :: rest)) = SysExit 1.
Proof.
  intros question Hclient Hanswer Hwf.
  rewrite run_arguments. fold question.
  rewrite (test_agent_run rt a b question Hclient). cbv zeta.
  rewrite Hanswer. cbn [completion].
  rewrite (for_event_broken rt events e "" [] Hwf). cbn [fst snd app].
  split; [| reflexivity].
  cbn [stdout]. rewrite !stdout_app, stdout_consumed. cbn [stdout].
  now rewrite app_nil_r.
Qed.

Lemma partial_answer_then_error_witness :
  stdout (fst (run (streaming (events_then [text_event "The "; text_event "deriv"]
                                           (Broken throttled)))
                   ["test-agent.py"; "AGENT0001"; "ALIAS001"]))
  = ["Testing Agent..." ++ LF; "Question: What is a derivative?" ++ LF ++ LF;
     "Response:" ++ LF; "The "; "deriv";
     "Error: An error occurred (throttlingException)" ++ LF].
Proof.
  exact (proj1 (partial_answer_then_error
                  (streaming (events_then [text_event "The "; text_event "deriv"]
                                          (Broken throttled)))
                  "test-agent.py" "AGENT0001" "ALIAS001" []
                  [text_event "The "; text_event "deriv"] throttled
                  eq_refl eq_refl eq_refl)).
Defined.

(** X3. A payload that is not well-formed UTF-8 ends the run at its event:
    nothing is written for that event, the error line follows the
    fragments written before it, and the rest of the stream is never
    pulled. *)
Theorem garbled_payload_stops_stream (rt : Runtime) (prog a b : string)
        (rest : list string) (events : list Event) (event : Event)
        (payload_bytes : byte_string) (unread : EventStream) :
  let question :=
    match rest with [] => "What is a derivative?" | q :: _ => q end in
  new_client rt "bedrock-agent-runtime" "eu-west-1" = inr tt ->
  agent_answer rt a b "test-session-123" question
  = inr (mk_response (events_then events (Yield event unread))) ->
  forallb well_formed events = true ->
  payload event = Some payload_bytes ->
  utf8_valid payload_bytes = false ->
  run rt (prog :: a :: b :: rest)
  = (([Call (boto3_client "bedrock-agent-runtime" "eu-west-1");
       Stdout ("Testing Agent..." ++ LF)%string;
       Stdout ("Question: " ++ question ++ LF ++ LF)%string;
       Call (invoke_agent a b "test-session-123" question);
       Stdout ("Response:" ++ LF)%string]
      ++ flat_map consumed events
      ++ [Call (next (inr (Some event)));
          Stdout ("Error: " ++ decode_error_text rt payload_bytes ++ LF)%string])%list,
     SysExit 1).
Proof.
  intros question Hclient Hanswer Hwf Hpayload Hbad.
  rewrite run_arguments. fold question.
  rewrite (test_agent_run rt a b question Hclient). cbv zeta.
  rewrite Hanswer. cbn [completion].
  rewrite (for_event_garbled rt events event payload_bytes unread "" []
                             Hwf Hpayload Hbad).
  cbn [fst snd app exn_str]. now rewrite <- app_assoc.
Qed.

Lemma garbled_payload_stops_stream_witness :
  calls (fst (run (streaming (stream_of [text_event "The "; garbled_event;
                                         text_event "end"]))
                  ["test-agent.py"; "AGENT0001"; "ALIAS001"]))
  = [boto3_client "bedrock-agent-runtime" "eu-west-1";
     invoke_agent "AGENT0001" "ALIAS001" "test-session-123" "What is a derivative?";
     next (inr (Some (text_event "The ")));
     next (inr (Some garbled_event))].
Proof.
  rewrite (garbled_payload_stops_stream
             (streaming (stream_of [text_event "The "; garbled_event;
                                    text_event "end"]))
             "test-agent.py" "AGENT0001" "ALIAS001" []
             [text_event "The "] garbled_event [xff]
             (stream_of [text_event "end"])
             eq_refl eq_refl eq_refl eq_refl eq_refl).
  reflexivity.
Defined.

(** X4. Whatever the stream, when the loop runs to its end [completion] is
    its starting value followed by exactly the text the loop wrote to
    standard output, in order: what was displayed is what was accumulated. *)
Theorem displayed_is_accumulated (rt : Runtime) (events : EventStream) :
  forall (completion : string) (t : trace call) (final : string),
    for_event rt events completion [] = (t, Return final) ->
    final = completion ++ joined (stdout t).
Proof.
  induction events as [| event rest IH | e]; intros completion t final.
  - cbn. intros H. injection H as <- <-. cbn. now rewrite append_empty_r.
  - cbn [for_event]. unfold bind, emit. rewrite on_event_run.
    destruct (payload event) as [b |]; [destruct (utf8_valid b) |];
      try discriminate;
      rewrite for_event_frame;
      destruct (for_event rt rest _ []) as [w o] eqn:Hrest; cbn [fst snd];
      intros H; injection H as <- ->;
      rewrite (IH _ _ _ Hrest); cbn [stdout joined].
    + now rewrite append_assoc.
    + reflexivity.
  - discriminate.
Qed.

Lemma displayed_is_accumulated_witness :
  "The derivative is..."
  = "" ++ joined (stdout (fst (for_event (streaming StopIteration)
                                         (stream_of derivative_events) "" []))).
Proof.
  exact (displayed_is_accumulated (streaming StopIteration)
           (stream_of derivative_events) "" _ "The derivative is..." eq_refl).
Defined.

(** X5. A run does not depend on the script's own name nor on arguments
    after the question: only the agent, the alias and the question count. *)
Theorem run_reads_three_arguments (rt : Runtime) (prog prog' a b : string) :
  run rt [prog; a; b] = run rt [prog'; a; b]
  /\ forall (q : string) (more : list string),
       run rt (prog :: a :: b :: q :: more) = run rt [prog'; a; b; q].
Proof.
  split; [| intros q more]; now rewrite !run_arguments.
Qed.

(** X6. The tester leaves with status 0 or 1, and with 0 exactly when it
    got its two arguments, the client was built, the invocation returned
    and the loop over the stream ran to its end. *)
Theorem tester_exit_status (rt : Runtime) (argv : list string) :
  (exit_status (snd (run rt argv)) = 0%Z \/ exit_status (snd (run rt argv)) = 1%Z)
  /\ (exit_status (snd (run rt argv)) = 0%Z
      <-> exists prog a b rest response final,
            argv = prog :: a :: b :: rest
            /\ new_client rt "bedrock-agent-runtime" "eu-west-1" = inr tt
            /\ agent_answer rt a b "test-session-123"
                 (match rest with [] => "What is a derivative?" | q :: _ => q end)
               = inr response
            /\ snd (for_event rt (completion response) "" []) = Return final).
Proof.
  destruct argv as [| prog [| a [| b rest]]];
    try (split; [now right |];
         split; [discriminate | intros (? & ? & ? & ? & ? & ? & H & _); discriminate]).
  rewrite run_arguments.
  set (question := match rest with [] => "What is a derivative?" | q :: _ => q end).
  destruct (new_client rt "bedrock-agent-runtime" "eu-west-1") as [e | []] eqn:Hclient.
  { assert (Hrun : test_agent rt a b question []
                   = ([Call (boto3_client "bedrock-agent-runtime" "eu-west-1")],
                      Raise e))
      by (unfold test_agent, bind, sdk; now rewrite Hclient).
    rewrite Hrun. split; [now right |].
    split; [discriminate | intros (? & ? & ? & ? & ? & ? & _ & H & _); discriminate]. }
  rewrite (test_agent_run rt a b question Hclient). cbv zeta.
  destruct (agent_answer rt a b "test-session-123" question) as [e | response]
    eqn:Hanswer.
  { split; [now right |].
    split; [discriminate |].
    intros (? & ? & ? & ? & ? & ? & Hargv & _ & H & _).
    injection Hargv as <- <- <- <-. fold question in H. congruence. }
  destruct (snd (for_event rt (completion response) "" [])) as [final | e | n]
    eqn:Hloop.
  - split; [now left |]. split; [intros _ | reflexivity].
    exists prog, a, b, rest, response, final. repeat split; assumption.
  - split; [now right |]. split; [discriminate |].
    intros (? & ? & ? & ? & ? & ? & Hargv & _ & H & Hreturn).
    injection Hargv as <- <- <- <-. fold question in H.
    rewrite Hanswer in H. injection H as <-. congruence.
  - now elim (for_event_no_exit rt (completion response) "" [] n).
Qed.

(** X7. A run invokes the agent at most once (there is no retry), and an
    invocation carries the first and the second argument as the agent and
    alias identifiers, unchanged. *)
Theorem at_most_one_invocation (rt : Runtime) (argv : list string) :
  (List.length (invocations (fst (run rt argv))) <= 1)%nat
  /\ forall a b s q,
       In (a, b, s, q) (invocations (fst (run rt argv))) ->
       nth_error argv 1 = Some a /\ nth_error argv 2 = Some b.
Proof.
  rewrite invocations_run.
  destruct argv as [| prog [| a' [| b' rest]]]; cbn;
    try (split; [lia | intros ? ? ? ? []]).
  destruct (new_client rt "bedrock-agent-runtime" "eu-west-1"); cbn;
    (split; [lia |]); intros a b s q; [intros [] |].
  intros [H | []]. injection H as <- <- _ _. now split.
Qed.

(** X8. When every payload is well-formed UTF-8, decoding chunk by chunk
    agrees with decoding the whole answer: the payloads put end to end are
    well-formed too, and the text accumulated by the loop is their
    decoding. *)
Theorem chunks_decode_as_whole (rt : Runtime) (events : list Event) :
  forallb well_formed events = true ->
  utf8_valid (payloads events) = true
  /\ joined (fragments events) = string_of_list_byte (payloads events)
  /\ forall completion t,
       snd (for_event rt (stream_of events) completion t)
       = Return (completion ++ string_of_list_byte (payloads events)).
Proof.
  intros Hwf.
  assert (Hwhole : utf8_valid (payloads events) = true
                   /\ joined (fragments events)
                      = string_of_list_byte (payloads events)).
  { induction events as [| event rest IH]; [split; reflexivity |].
    cbn [forallb] in Hwf. apply andb_true_iff in Hwf. destruct Hwf as [Hev Hrest].
    destruct (IH Hrest) as [IHvalid IHtext].
    unfold payloads in *. cbn [flat_map fragments]. unfold well_formed in Hev.
    destruct (payload event) as [b |]; [| now split].
    split.
    - now rewrite (utf8_valid_app b _ Hev).
    - cbn [joined]. now rewrite string_of_list_byte_app, IHtext. }
  destruct Hwhole as [Hvalid Htext].
  repeat split; try assumption.
  intros completion t. rewrite (for_event_stream_of rt events completion t Hwf).
  cbn [snd]. now rewrite Htext.
Qed.

Lemma chunks_decode_as_whole_witness :
  utf8_valid (payloads derivative_events) = true
  /\ joined (fragments derivative_events) = "The derivative is...".
Proof.
  destruct (chunks_decode_as_whole (streaming StopIteration) derivative_events
                                   eq_refl) as (Hvalid & Htext & _).
  split; [exact Hvalid | exact Htext].
Defined.

(** X14. Whenever the agent is invoked, the banner and the question have
    been printed first, and the question echoed is the question sent. *)
Theorem question_echoed_before_invocation (rt : Runtime) (argv : list string)
        (a b s q : string) :
  In (a, b, s, q) (invocations (fst (run rt argv))) ->
  exists shown,
    fst (run rt argv)
    = ([Call (boto3_client "bedrock-agent-runtime" "eu-west-1");
        Stdout ("Testing Agent..." ++ LF)%string;
        Stdout ("Question: " ++ q ++ LF ++ LF)%string;
        Call (invoke_agent a b s q)] ++ shown)%list.
Proof.
  intros Hin. pose proof Hin as Hargs. rewrite invocations_run in Hargs.
  destruct argv as [| prog [| a' [| b' rest]]]; try now destruct Hargs.
  rewrite run_arguments.
  destruct (new_client rt "bedrock-agent-runtime" "eu-west-1") as [e | []]
    eqn:Hclient; [now destruct Hargs |].
  destruct Hargs as [Heq | []]. injection Heq as <- <- <- <-.
  rewrite (test_agent_run rt _ _ _ Hclient). cbv zeta.
  destruct (agent_answer rt a' b' "test-session-123" _) as [e | response];
    [now eexists |].
  destruct (snd (for_event rt (completion response) "" [])); now eexists.
Qed.

Lemma question_echoed_before_invocation_witness :
  exists shown,
    fst (run (refusing throttled) ["test-agent.py"; "AGENT0001"; "ALIAS001"; "Why?"])
    = ([Call (boto3_client "bedrock-agent-runtime" "eu-west-1");
        Stdout ("Testing Agent..." ++ LF)%string;
        Stdout ("Question: " ++ "Why?" ++ LF ++ LF)%string;
        Call (invoke_agent "AGENT0001" "ALIAS001" "test-session-123" "Why?")]
       ++ shown)%list.
Proof.
  apply (question_echoed_before_invocation (refusing throttled)).
  cbn. tauto.
Defined.

End TesterExtras.

(** ** More on the index provisioner *)
Module ProvisionerExtras.
Import Py PyFacts PyExtras CreateIndex ProvisionerFacts.
Local Open Scope py_scope.

(** Lines 11-29 never leave through [sys.exit], print at most the endpoint
    line, and build a client with the script's fixed settings. *)
Lemma connect_shape (rt : Runtime) :
  (forall n, snd (connect rt []) <> SysExit n)
  /\ (forall line, In line (stdout (fst (connect rt []))) ->
        exists endpoint, line = "Collection endpoint: " ++ endpoint ++ LF)
  /\ (forall client, In client (clients (fst (connect rt []))) ->
        exists host credentials,
          client = mk_client [(host, 443%Z)] (mk_auth credentials REGION "aoss")
                             true true "RequestsHttpConnection" 300).
Proof.
  open_connect.
  on_answer (new_client rt "opensearchserverless" REGION) ipattern:([e | []])
            ltac:(repeat split; [discriminate | intros ? [] | intros ? []]).
  on_answer (collections rt [COLLECTION_NAME]) ipattern:([e | response])
            ltac:(repeat split; [discriminate | intros ? [] | intros ? []]).
  destruct (collectionDetails response) as [| detail others];
    cbn [nth_error]; cbv beta iota;
    [repeat split; [discriminate | intros ? [] | intros ? []] |].
  destruct (collectionEndpoint detail) as [endpoint |];
    cbv beta iota;
    [| repeat split; [discriminate | intros ? [] | intros ? []]].
  assert (Hline : forall line,
             In line [("Collection endpoint: " ++ endpoint) ++ LF] ->
             exists endpoint0, line = "Collection endpoint: " ++ endpoint0 ++ LF).
  { intros line [<- | []]. exists endpoint. cbn. now rewrite ?append_assoc. }
  on_answer (ambient_credentials rt) ipattern:([e | credentials])
            ltac:(repeat split; [discriminate | exact Hline | intros ? []]).
  on_answer (signer rt (mk_auth credentials REGION "aoss")) ipattern:([e | []])
            ltac:(repeat split; [discriminate | exact Hline | intros ? []]).
  destruct (connection rt _) as [e | []]; cbv beta iota;
    (repeat split; [discriminate | exact Hline |]);
    cbn; intros client [<- | []]; now eexists _, _.
Qed.

(** Once the client is ready the rest of the run is the try block. *)
Lemma run_after_connect (rt : Runtime) (t : trace call) (client : OpenSearch) :
  connect rt [] = (t, Return client) -> run rt = create_index rt client t.
Proof. intros H. unfold run, main, bind. now rewrite H. Qed.

(** X9. An exception raised before the [try] (building the SDK client, the
    collection lookup, reading the endpoint, the credentials, the signer,
    the search client) ends the run uncaught, whatever its text: the
    already-exists test is never applied to it, no index-creation call is
    made, and nothing is printed beyond the endpoint line. *)
Theorem setup_failure_uncaught (rt : Runtime) (e : exn) :
  snd (connect rt []) = Raise e ->
  run rt = (fst (connect rt []), Raise e)
  /\ exit_status (snd (run rt)) = 1%Z
  /\ created (fst (run rt)) = []
  /\ forall line, In line (stdout (fst (run rt))) ->
       exists endpoint, line = "Collection endpoint: " ++ endpoint ++ LF.
Proof.
  intros Hraise.
  assert (Hrun : run rt = (fst (connect rt []), Raise e)).
  { unfold run, main, bind.
    destruct (connect rt []) as [t o]. cbn [snd] in Hraise. now subst o. }
  rewrite Hrun. cbn [fst snd].
  repeat split.
  - apply (proj1 (connect_trace rt)).
  - apply (proj1 (proj2 (connect_shape rt))).
Qed.

(** A lookup that raises an error with the already-exists marker in its
    text, and a signer that refuses missing credentials. *)
Lemma setup_failure_uncaught_witness :
  run (lookup_failing already_exists)
  = ([Call (boto3_client "opensearchserverless" REGION);
      Call (batch_get_collection [COLLECTION_NAME])],
     Raise already_exists)
  /\ contains "resource_already_exists_exception" (exn_str already_exists) = true
  /\ run (without_credentials example_endpoint)
     = ([Call (boto3_client "opensearchserverless" REGION);
         Call (batch_get_collection [COLLECTION_NAME]);
         Stdout ("Collection endpoint: https://k9x2.eu-west-1.aoss.amazonaws.com" ++ LF);
         Call get_credentials;
         Call (new_AWSV4SignerAuth (mk_auth None REGION "aoss"))],
        Raise (mk_exn "ValueError" "Credentials cannot be empty")).
Proof.
  split; [| split; [reflexivity |]].
  - exact (proj1 (setup_failure_uncaught (lookup_failing already_exists)
                                         already_exists eq_refl)).
  - exact (proj1 (setup_failure_uncaught (without_credentials example_endpoint)
                                         (mk_exn "ValueError" "Credentials cannot be empty")
                                         eq_refl)).
Defined.

(** X10. Every search client a run builds is built for one host on port
    443, with TLS and certificate verification on, the requests connection
    class, a timeout of 300, and a signer for the service ['aoss'] in the
    script's region. *)
Theorem client_settings_fixed (rt : Runtime) (client : OpenSearch) :
  In (Call (new_OpenSearch client)) (fst (run rt)) ->
  exists host credentials,
    client = mk_client [(host, 443%Z)] (mk_auth credentials "eu-west-1" "aoss")
                       true true "RequestsHttpConnection" 300.
Proof.
  rewrite In_clients, clients_run.
  apply (proj2 (proj2 (connect_shape rt))).
Qed.

Lemma client_settings_fixed_witness :
  exists host credentials,
    mk_client [("k9x2.eu-west-1.aoss.amazonaws.com", 443%Z)]
              (mk_auth (Some (mk_credentials "AKIAEXAMPLE" "secret" None))
                       "eu-west-1" "aoss")
              true true "RequestsHttpConnection" 300
    = mk_client [(host, 443%Z)] (mk_auth credentials "eu-west-1" "aoss")
                true true "RequestsHttpConnection" 300.
Proof.
  apply (client_settings_fixed (mock [active example_endpoint] (inl forbidden))).
  cbn. tauto.
Defined.

(** X11. A run issues the index-creation call at most once (no retry), and
    only on the client it has just built: the call is there exactly when
    lines 11-29 ran to their end. *)
Theorem create_at_most_once (rt : Runtime) :
  (List.length (created (fst (run rt))) <= 1)%nat
  /\ (forall client index body,
        In (client, index, body) (created (fst (run rt))) ->
        clients (fst (run rt)) = [client])
  /\ (created (fst (run rt)) <> []
      <-> exists t client, connect rt [] = (t, Return client)).
Proof.
  rewrite created_run, clients_run.
  destruct (connect rt []) as [t [client | e | n]] eqn:Hconnect; cbn [fst snd].
  - split; [cbn; lia |]. split.
    + intros c index body [H | []]. injection H as <- _ _.
      destruct (connect_success rt t client Hconnect)
        as (? & ? & ? & ? & ? & _ & _ & _ & _ & ->).
      reflexivity.
    + split; [intros _; now exists t, client | discriminate].
  - split; [cbn; lia |]. split; [intros ? ? ? [] |].
    split; [intros H; now elim H | intros (? & ? & H); discriminate].
  - split; [cbn; lia |]. split; [intros ? ? ? [] |].
    split; [intros H; now elim H | intros (? & ? & H); discriminate].
Qed.

(** X12. The provisioner leaves with status 0 or 1, and with 0 exactly
    when lines 11-29 ran to their end and the creation call either
    returned or raised an error whose text holds the already-exists
    marker. *)
Theorem provisioner_exit_status (rt : Runtime) :
  (exit_status (snd (run rt)) = 0%Z \/ exit_status (snd (run rt)) = 1%Z)
  /\ (exit_status (snd (run rt)) = 0%Z
      <-> exists t client,
            connect rt [] = (t, Return client)
            /\ ((exists response,
                   create_answer rt client INDEX_NAME index_body = inr response)
                \/ (exists e,
                      create_answer rt client INDEX_NAME index_body = inl e
                      /\ contains "resource_already_exists_exception" (exn_str e)
                         = true))).
Proof.
  destruct (connect rt []) as [t [client | e | n]] eqn:Hconnect.
  - rewrite (run_after_connect rt t client Hconnect), create_index_run. cbv zeta.
    destruct (create_answer rt client INDEX_NAME index_body) as [e | response]
      eqn:Hanswer.
    + destruct (contains "resource_already_exists_exception" (exn_str e))
               eqn:Hmarker.
      * split; [now left |]. split; [intros _ | reflexivity].
        exists t, client. split; [reflexivity |]. right. now exists e.
      * split; [now right |]. split; [discriminate |].
        intros (t' & client' & H & Hcase). injection H as <- <-.
        destruct Hcase as [(response & Hr) | (e' & He & Hm)]; congruence.
    + split; [now left |]. split; [intros _ | reflexivity].
      exists t, client. split; [reflexivity |]. left. now exists response.
  - assert (Hrun : run rt = (t, Raise e))
      by (unfold run, main, bind; now rewrite Hconnect).
    rewrite Hrun. split; [now right |]. split; [discriminate |].
    intros (? & ? & H & _). discriminate.
  - pose proof (proj1 (connect_shape rt) n) as Hno.
    rewrite Hconnect in Hno. now elim Hno.
Qed.

(** X13. The host a client is built for is never longer than the endpoint
    it comes from, and it is the endpoint itself exactly when the endpoint
    holds no ["https://"]. *)
Theorem host_unchanged_iff_no_scheme (rt : Runtime) (client : OpenSearch) :
  In (Call (new_OpenSearch client)) (fst (run rt)) ->
  exists response detail others endpoint host,
    collections rt [COLLECTION_NAME] = inr response
    /\ collectionDetails response = detail :: others
    /\ collectionEndpoint detail = Some endpoint
    /\ hosts client = [(host, 443%Z)]
    /\ (String.length host <= String.length endpoint)%nat
    /\ (host = endpoint <-> contains "https://" endpoint = false).
Proof.
  rewrite In_clients, clients_run. intros Hin.
  destruct (proj2 (connect_trace rt) client Hin)
    as (response & detail & others & endpoint & Hlookup & Hdetails & Hendpoint & Hhost).
  exists response, detail, others, endpoint, (replace "https://" "" endpoint).
  repeat split; try assumption.
  - apply replace_from_length. discriminate.
  - intros Hsame.
    destruct (contains "https://" endpoint) eqn:Hin'; [| reflexivity].
    pose proof (replace_present_shorter "https://" endpoint
                  ltac:(discriminate) Hin') as Hshort.
    rewrite Hsame in Hshort. lia.
  - intros Habsent. apply replace_absent; [discriminate | exact Habsent].
Qed.

Lemma host_unchanged_iff_no_scheme_witness :
  exists response detail others endpoint host,
    collections (mock [active "k9x2.eu-west-1.aoss.amazonaws.com"]
                      (inr acknowledged))
                [COLLECTION_NAME] = inr response
    /\ collectionDetails response = detail :: others
    /\ collectionEndpoint detail = Some endpoint
    /\ hosts (mk_client [("k9x2.eu-west-1.aoss.amazonaws.com", 443%Z)]
                        (mk_auth (Some (mk_credentials "AKIAEXAMPLE" "secret" None))
                                 "eu-west-1" "aoss")
                        true true "RequestsHttpConnection" 300)
       = [(host, 443%Z)]
    /\ (String.length host <= String.length endpoint)%nat
    /\ (host = endpoint <-> contains "https://" endpoint = false).
Proof.
  apply (host_unchanged_iff_no_scheme
           (mock [active "k9x2.eu-west-1.aoss.amazonaws.com"] (inr acknowledged))).
  cbn. tauto.
Defined.

End ProvisionerExtras.
